(** * analyze_dicom.py: the byte-level analysis of a PixelData value

    The script [analyze_dicom.py] reads a DICOM file through pydicom and
    then inspects the raw PixelData value [raw] with three scans:

    - the encapsulation scan (the [while] loop, lines 75-93),
    - the search for the first MP4 atom (the [for] loop, lines 103-114),
    - the avcC lookup (lines 117-126), nested in the atom check and run
      inside the [try] of line 99.

    The development embeds that part of the script: everything from
    [raw = pd.value] on, for a file that has a PixelData element.  What the
    script prints is kept as a list of structured lines; the constant banner
    lines and the two lines that only echo the size and the first fifty bytes
    carry no decision and are left out. *)

From Stdlib Require Import ZArith List Lia Bool String.
From Stdlib.Strings Require Import Byte.
From Stdlib Require Import DecimalString.
Import ListNotations.

Local Open Scope Z_scope.

Definition bytes := list byte.

(** ** The Python primitives the script uses on [bytes] *)

Module Py.

Definition len (b : bytes) : Z := Z.of_nat (List.length b).

(** A slice bound as Python normalises it: a negative bound counts from
    the end, and every bound is clipped to [0 .. len]. *)
Definition clamp (n i : Z) : Z :=
  if i <? 0 then Z.max 0 (i + n) else Z.min i n.

(** [b[lo:hi]] *)
Definition slice (b : bytes) (lo hi : Z) : bytes :=
  let lo' := clamp (len b) lo in
  let hi' := clamp (len b) hi in
  firstn (Z.to_nat (hi' - lo')) (skipn (Z.to_nat lo') b).

(** [b[:hi]] *)
Definition slice_to (b : bytes) (hi : Z) : bytes := slice b 0 hi.

Inductive exn : Type := IndexError.

(** [b[i]]: raises [IndexError] out of range. *)
Definition getitem (b : bytes) (i : Z) : exn + byte :=
  let j := if i <? 0 then i + len b else i in
  if (0 <=? j) && (j <? len b)
  then match nth_error b (Z.to_nat j) with
       | Some x => inr x
       | None => inl IndexError
       end
  else inl IndexError.

Definition byte_val (x : byte) : Z := Z.of_N (Byte.to_N x).

(** [a == b] on bytes objects *)
Fixpoint bytes_eqb (a b : bytes) : bool :=
  match a, b with
  | [], [] => true
  | x :: a', y :: b' => Byte.eqb x y && bytes_eqb a' b'
  | _, _ => false
  end.

(** [int.from_bytes(b, 'little')] *)
Fixpoint from_bytes_little (b : bytes) : Z :=
  match b with
  | [] => 0
  | x :: b' => byte_val x + 256 * from_bytes_little b'
  end.

(** [int.from_bytes(b, 'big')] *)
Definition from_bytes_big (b : bytes) : Z :=
  fold_left (fun acc x => acc * 256 + byte_val x) b 0.

Fixpoint starts_with (needle b : bytes) : bool :=
  match needle, b with
  | [], _ => true
  | _ :: _, [] => false
  | x :: needle', y :: b' => Byte.eqb x y && starts_with needle' b'
  end.

Fixpoint find_from (needle b : bytes) (i : Z) : Z :=
  if starts_with needle b then i
  else match b with
       | [] => -1
       | _ :: b' => find_from needle b' (i + 1)
       end.

(** [b.find(needle)]: the lowest index of an occurrence, [-1] if none. *)
Definition find (needle b : bytes) : Z := find_from needle b 0.

(** [needle in b] *)
Definition contains (needle b : bytes) : bool := negb (find needle b =? -1).

(** [range(n)] *)
Definition range (n : Z) : list Z := map Z.of_nat (seq 0 (Z.to_nat n)).

End Py.

Import Py.

(** ** Byte patterns *)

Definition item_tag : bytes := [xfe; xff; x00; xe0].
Definition seq_delim_tag : bytes := [xfe; xff; xdd; xe0].
Definition ftyp : bytes := [x66; x74; x79; x70].
Definition mdat : bytes := [x6d; x64; x61; x74].
Definition avcC : bytes := [x61; x76; x63; x43].

(** ** What the script prints *)

Inductive line : Type :=
| Mp4FtypFound (ftyp_pos : Z)                   (* line 65 *)
| Mp4Brand (brand : bytes)                      (* line 69 *)
| NoFtypWarning                                 (* line 71 *)
| ItemAt (item_count pos length : Z)            (* line 80 *)
| SequenceDelimiterAt (pos : Z)                 (* line 90 *)
| FirstAtom (size : Z) (atom_type : bytes)      (* line 114 *)
| H264Profile (name : string) (profile_idc : Z) (* line 123 *)
| H264Level (level : string)                    (* line 124 *)
| NoAvcC                                        (* line 126 *)
| VideoCheckError (e : exn).                    (* line 128 *)

(** ** Printing and raising: the monad of the [try] body *)

Definition M (A : Type) : Type := (list line * (exn + A))%type.

Definition ret {A} (a : A) : M A := ([], inr a).

Definition bind {A B} (m : M A) (k : A -> M B) : M B :=
  match m with
  | (out, inl e) => (out, inl e)
  | (out, inr a) => let (out', r) := k a in (out ++ out', r)
  end.

Definition print (l : line) : M unit := ([l], inr tt).

Definition lift {A} (r : exn + A) : M A := ([], r).

Notation "x <- m ;; k" := (bind m (fun x => k))
  (at level 61, m at next level, right associativity).
Notation "m ;;; k" := (bind m (fun _ => k))
  (at level 61, right associativity).

(** [try: m except Exception as e: h e] *)
Definition try_except (m : M unit) (h : exn -> list line) : list line :=
  match m with
  | (out, inl e) => out ++ h e
  | (out, inr _) => out
  end.

(** ** Lines 62-71: the MP4 signature check *)

Definition signature_check (raw : bytes) : list line :=
  if contains ftyp (slice_to raw 100) then
    let ftyp_pos := find ftyp raw in
    let brand_start := ftyp_pos + 4 in
    let brand := slice raw brand_start (brand_start + 4) in
    [Mp4FtypFound ftyp_pos; Mp4Brand brand]
  else [NoFtypWarning].

(** ** Lines 75-93: the encapsulation scan *)

Record scan_state : Type := mkScan
  { pos : Z; item_count : Z; printed : list line }.

(** One [fuel] unit is one evaluation of the [while] condition. *)
Fixpoint scan_items (fuel : nat) (raw : bytes) (st : scan_state)
  : option scan_state :=
  match fuel with
  | O => None
  | S fuel' =>
    let pos := st.(pos) in
    if pos <? Z.min (len raw) 200 then
      if bytes_eqb (slice raw pos (pos + 4)) item_tag then
        let length := from_bytes_little (slice raw (pos + 4) (pos + 8)) in
        let out := st.(printed) ++ [ItemAt st.(item_count) pos length] in
        let item_count := st.(item_count) + 1 in
        if length =? 0 then
          scan_items fuel' raw (mkScan (pos + 8) item_count out)
        else if length =? 0xffffffff then
          scan_items fuel' raw (mkScan (pos + 8) item_count out)
        else
          Some (mkScan (pos + 8 + length) item_count out)
      else if bytes_eqb (slice raw pos (pos + 4)) seq_delim_tag then
        Some (mkScan pos st.(item_count)
                (st.(printed) ++ [SequenceDelimiterAt pos]))
      else
        scan_items fuel' raw (mkScan (pos + 1) st.(item_count) st.(printed))
    else Some st
  end.

Definition scan_fuel : nat := 201.

Definition encapsulation (raw : bytes) : option scan_state :=
  scan_items scan_fuel raw (mkScan 0 0 []).

(** ** Lines 103-114: the first MP4 atom *)

Definition is_signature (b : bytes) : bool :=
  bytes_eqb b ftyp || bytes_eqb b mdat.

(** The [for] loop of lines 104-108; [None] is Python's [None]. *)
Definition find_video_start (raw : bytes) : option Z :=
  match List.find (fun i => is_signature (slice raw i (i + 4)))
                  (range (Z.min (len raw) 200)) with
  | Some i => Some (i - 4)
  | None => None
  end.

(** [video_start and video_start > 0] *)
Definition video_start_ok (video_start : option Z) : bool :=
  match video_start with
  | None => false
  | Some v => negb (v =? 0) && (v >? 0)
  end.

Record atom : Type := mkAtom
  { atom_offset : Z; atom_size : Z; atom_type : bytes }.

Definition first_atom (raw : bytes) : option atom :=
  match find_video_start raw with
  | Some video_start =>
    if video_start_ok (Some video_start) then
      Some (mkAtom video_start
              (from_bytes_big (slice raw video_start (video_start + 4)))
              (slice raw (video_start + 4) (video_start + 8)))
    else None
  | None => None
  end.

(** ** Lines 117-126: the avcC lookup *)

(** The dict of line 122, in the order it is written. *)
Definition profile_names : list (Z * string) :=
  [(66, "Baseline"%string); (77, "Main"%string); (100, "High"%string)].

(** [d.get(key, default)] *)
Definition dict_get (d : list (Z * string)) (key : Z) (default : string)
  : string :=
  match List.find (fun kv => fst kv =? key) d with
  | Some kv => snd kv
  | None => default
  end.

(** [profile_names.get(profile_idc, 'Unknown')] *)
Definition profile_name (profile_idc : Z) : string :=
  dict_get profile_names profile_idc "Unknown".

Definition decimal (n : Z) : string := NilZero.string_of_int (Z.to_int n).

(** [f"{level_idc / 10:.1f}"].  [level_idc] is one byte, so the quotient is
    a multiple of a tenth between 0 and 25.5 and the one-decimal rendering
    of its nearest double is the integer part, a point and the last digit. *)
Definition format_level (level_idc : Z) : string :=
  (decimal (level_idc / 10) ++ "." ++ decimal (level_idc mod 10))%string.

Definition avc_check (raw : bytes) : M unit :=
  let avc_pos := find avcC raw in
  if avc_pos >? 0 then
    profile_idc <- lift (getitem raw (avc_pos + 5)) ;;
    level_idc <- lift (getitem raw (avc_pos + 7)) ;;
    print (H264Profile (profile_name (byte_val profile_idc))
                       (byte_val profile_idc)) ;;;
    print (H264Level (format_level (byte_val level_idc)))
  else
    print NoAvcC.

(** ** Lines 99-128: the video stream check *)

Definition video_body (raw : bytes) : M unit :=
  match first_atom raw with
  | Some a =>
    print (FirstAtom a.(atom_size) a.(atom_type)) ;;;
    avc_check raw
  | None => ret tt
  end.

(** The [except] clause of lines 127-128. *)
Definition handler (e : exn) : list line := [VideoCheckError e].

Definition video_stream_check (raw : bytes) : list line :=
  try_except (video_body raw) handler.

(** ** The whole analysis of a PixelData value *)

Record report : Type := mkReport
  { signature_lines : list line;
    encapsulation_state : scan_state;
    video_lines : list line }.

(** [analyze_dicom] from [raw = pd.value] on; [None] only if the scan's fuel
    ran out. *)
Definition analyze_dicom (raw : bytes) : option report :=
  match encapsulation raw with
  | Some st => Some (mkReport (signature_check raw) st (video_stream_check raw))
  | None => None
  end.

Definition all_lines (r : report) : list line :=
  r.(signature_lines) ++ r.(encapsulation_state).(printed) ++ r.(video_lines).

(** ** Predicates on the printed lines *)

(** What a line printed by the encapsulation scan says about the buffer. *)
Definition scan_line_ok (raw : bytes) (l : line) : Prop :=
  match l with
  | ItemAt _ p n =>
    0 <= p < 200 /\ p + 4 <= len raw /\
    slice raw p (p + 4) = item_tag /\
    n = from_bytes_little (slice raw (p + 4) (p + 8)) /\
    0 <= n < 2 ^ 32
  | SequenceDelimiterAt p =>
    0 <= p < 200 /\ slice raw p (p + 4) = seq_delim_tag
  | _ => False
  end.

(** The two lines that carry an AVC configuration. *)
Definition is_avc_line (l : line) : bool :=
  match l with
  | H264Profile _ _ | H264Level _ => true
  | _ => false
  end.

(** ** Sample buffers *)

(** An atom header at offset 1 followed by a complete avcC record. *)
Definition sample_box : bytes :=
  [x00; x00; x00; x00; x18] ++ ftyp ++ [x69; x73; x6f; x6d] ++
  avcC ++ [x01; x64; x00; x29; x00].

(** The header of the specification's example: size 24 and [ftyp] at the
    very start of the buffer. *)
Definition header_at_zero : bytes :=
  [x00; x00; x00; x18] ++ ftyp ++ [x69; x73; x6f; x6d].

(** An atom, then an avcC tag with a single byte after it. *)
Definition cut_avcC : bytes :=
  [x00; x00; x00; x00; x10] ++ ftyp ++ avcC ++ [x01].

(** An atom, then an avcC tag with bytes up to offset +6 only. *)
Definition short_avcC : bytes :=
  [x00; x00; x00; x00; x08] ++ mdat ++ avcC ++ [x01; x64; x00].

(** A complete avcC record and no [ftyp] or [mdat] anywhere. *)
Definition bare_avcC : bytes := [x00] ++ avcC ++ [x01; x64; x00; x29].



(** Size field 1, [ftyp], then the 64-bit value 32. *)
Definition extended_size : bytes :=
  [x00; x00; x00; x00; x01] ++ ftyp ++
  [x00; x00; x00; x00; x00; x00; x00; x20].

(** An item that declares five payload bytes and has none. *)
Definition overlong_item : bytes := item_tag ++ [x05; x00; x00; x00].

(** One item of four payload bytes, followed by another item tag. *)
Definition one_fragment : bytes :=
  item_tag ++ [x04; x00; x00; x00] ++ [x00; x00; x00; x18] ++
  item_tag ++ [x02; x00; x00; x00; x01; x02].

(** A sequence delimiter followed by an item. *)
Definition delimiter_first : bytes :=
  seq_delim_tag ++ [x00; x00; x00; x00] ++ item_tag ++ [x00; x00; x00; x00].

(** ** Vocabulary for the further properties *)

(** The offset a line of the encapsulation scan is about. *)
Definition line_pos (l : line) : Z :=
  match l with
  | ItemAt _ p _ => p
  | SequenceDelimiterAt p => p
  | _ => 0
  end.

Definition is_item_line (l : line) : bool :=
  match l with
  | ItemAt _ _ _ => true
  | _ => false
  end.

(** The lengths after which the scan goes on: the empty item and the
    undefined length (lines 82-85). *)
Definition unsized (length : Z) : Prop := length = 0 \/ length = 0xffffffff.

(** No window of the scanned prefix holds an item or delimiter tag. *)
Definition no_item_tags (raw : bytes) : Prop :=
  forall p, 0 <= p < Z.min (len raw) 200 ->
            slice raw p (p + 4) <> item_tag /\
            slice raw p (p + 4) <> seq_delim_tag.

(** The three ways the [while] loop of lines 77-93 ends, from the state
    [st0] of its last turn: the condition fails, a sized item breaks it, or
    a sequence delimiter breaks it. *)
Definition scan_exit (raw : bytes) (st0 st' : scan_state) : Prop :=
  (Z.min (len raw) 200 <= pos st0 /\ st' = st0) \/
  (pos st0 < Z.min (len raw) 200 /\
   slice raw (pos st0) (pos st0 + 4) = item_tag /\
   ~ unsized (from_bytes_little (slice raw (pos st0 + 4) (pos st0 + 8))) /\
   st' = mkScan
           (pos st0 + 8 +
            from_bytes_little (slice raw (pos st0 + 4) (pos st0 + 8)))
           (item_count st0 + 1)
           (printed st0 ++
            [ItemAt (item_count st0) (pos st0)
               (from_bytes_little
                  (slice raw (pos st0 + 4) (pos st0 + 8)))])) \/
  (pos st0 < Z.min (len raw) 200 /\
   slice raw (pos st0) (pos st0 + 4) = seq_delim_tag /\
   st' = mkScan (pos st0) (item_count st0)
           (printed st0 ++ [SequenceDelimiterAt (pos st0)])).

(** What holds of the state at the start of every turn of the loop: [pos]
    is at most seven past the scanned prefix, every line so far is an
    unsized item, numbered from 0, at least eight bytes behind [pos] and at
    least eight bytes after the lines before it. *)
Definition scan_running (raw : bytes) (st : scan_state) : Prop :=
  0 <= pos st <= Z.min (len raw) 200 + 7 /\
  item_count st = Z.of_nat (List.length (printed st)) /\
  8 * item_count st <= pos st /\
  forall k l, nth_error (printed st) k = Some l ->
    exists p n, l = ItemAt (Z.of_nat k) p n /\ unsized n /\
                0 <= p /\ p + 8 <= pos st /\
                forall j l', (j < k)%nat ->
                             nth_error (printed st) j = Some l' ->
                             line_pos l' + 8 <= p.

(** More sample buffers *)

(** Three hundred zero bytes. *)
Definition zeros : bytes := repeat x00 300.

(** [ftyp] at index 98: inside the first 200 bytes, but not wholly inside
    the first 100. *)
Definition late_ftyp : bytes := repeat x00 98 ++ ftyp ++ [x69; x73; x6f; x6d].

(** [mdat] at index 2, then a complete [ftyp] atom. *)
Definition early_mdat : bytes :=
  [x00; x00] ++ mdat ++ [x00; x00; x00; x18] ++ ftyp.

(** An undefined-length item whose first payload bytes are an item tag. *)
Definition nested_item : bytes :=
  item_tag ++ [xff; xff; xff; xff] ++ item_tag ++ [x03; x00; x00; x00] ++
  [x01; x02; x03].

(** Junk, then a sequence delimiter at offset 3. *)
Definition junk_then_delimiter : bytes :=
  [x01; xfe; xff] ++ seq_delim_tag ++ [x00; x00; x00; x00].

(** Twenty-five empty items. *)
Definition empty_items : bytes :=
  List.concat (repeat (item_tag ++ [x00; x00; x00; x00]) 25).

(** * Properties *)

(** ** Slices, comparisons and integer decoding *)

Section PyFacts.

Lemma bytes_eqb_eq (a b : bytes) : bytes_eqb a b = true <-> a = b.
Proof.
  revert b; induction a as [|x a IH]; intros [|y b]; simpl;
    try (split; [discriminate | congruence]); try tauto.
  rewrite andb_true_iff, IH. split.
  - intros [Hxy ->]. apply Byte.byte_dec_bl in Hxy. now subst.
  - intros H. injection H as -> ->. split; auto using Byte.byte_dec_lb.
Qed.

Lemma bytes_eqb_refl (a : bytes) : bytes_eqb a a = true.
Proof. now apply bytes_eqb_eq. Qed.

Lemma len_nonneg (b : bytes) : 0 <= len b.
Proof. unfold len. lia. Qed.

Lemma len_app (a b : bytes) : len (a ++ b) = len a + len b.
Proof. unfold len. rewrite length_app. lia. Qed.

Lemma clamp_nonneg (n i : Z) : 0 <= i -> clamp n i = Z.min i n.
Proof. intros H. unfold clamp. destruct (Z.ltb_spec i 0); lia. Qed.

Lemma slice_nonneg (b : bytes) (lo hi : Z) :
  0 <= lo -> 0 <= hi ->
  slice b lo hi =
  firstn (Z.to_nat (Z.min hi (len b) - Z.min lo (len b)))
         (skipn (Z.to_nat (Z.min lo (len b))) b).
Proof. intros Hlo Hhi. unfold slice. now rewrite !clamp_nonneg. Qed.

Lemma slice_length (b : bytes) (lo hi : Z) :
  0 <= lo -> 0 <= hi ->
  List.length (slice b lo hi) =
  Z.to_nat (Z.min hi (len b) - Z.min lo (len b)).
Proof.
  intros Hlo Hhi. rewrite slice_nonneg by assumption.
  rewrite length_firstn, length_skipn. unfold len. lia.
Qed.

(** A four-byte window that compares equal to a four-byte pattern lies
    inside the buffer. *)
Lemma slice_window_inside (b : bytes) (p : Z) :
  0 <= p -> List.length (slice b p (p + 4)) = 4%nat -> p + 4 <= len b.
Proof.
  intros Hp. rewrite slice_length by lia.
  pose proof (len_nonneg b). lia.
Qed.

Lemma byte_val_range (x : byte) : 0 <= byte_val x < 256.
Proof.
  unfold byte_val. pose proof (Byte.to_N_bounded x). lia.
Qed.

Lemma from_bytes_little_range (b : bytes) :
  0 <= from_bytes_little b < 256 ^ len b.
Proof.
  induction b as [|x b IH].
  - simpl. unfold len. simpl. lia.
  - change (from_bytes_little (x :: b))
      with (byte_val x + 256 * from_bytes_little b).
    replace (len (x :: b)) with (Z.succ (len b))
      by (unfold len; simpl List.length; lia).
    rewrite Z.pow_succ_r by apply len_nonneg.
    pose proof (byte_val_range x). lia.
Qed.

Lemma from_bytes_big_acc (b : bytes) (acc : Z) :
  fold_left (fun a x => a * 256 + byte_val x) b acc =
  acc * 256 ^ len b + from_bytes_big b.
Proof.
  unfold from_bytes_big. revert acc.
  induction b as [|x b IH]; intros acc.
  - simpl. unfold len. simpl. lia.
  - cbn [fold_left]. rewrite (IH (acc * 256 + byte_val x)).
    rewrite (IH (0 * 256 + byte_val x)).
    replace (len (x :: b)) with (Z.succ (len b))
      by (unfold len; simpl List.length; lia).
    rewrite Z.pow_succ_r by apply len_nonneg. ring.
Qed.

Lemma from_bytes_big_range (b : bytes) :
  0 <= from_bytes_big b < 256 ^ len b.
Proof.
  induction b as [|x b IH].
  - unfold from_bytes_big, len. simpl. lia.
  - unfold from_bytes_big. cbn [fold_left]. rewrite from_bytes_big_acc.
    replace (len (x :: b)) with (Z.succ (len b))
      by (unfold len; simpl List.length; lia).
    rewrite Z.pow_succ_r by apply len_nonneg.
    pose proof (byte_val_range x). nia.
Qed.

End PyFacts.

(** ** The encapsulation scan *)

Section Encapsulation.

Variable raw : bytes.

Lemma scan_items_S (fuel : nat) (st : scan_state) :
  scan_items (S fuel) raw st =
  if pos st <? Z.min (len raw) 200 then
    if bytes_eqb (slice raw (pos st) (pos st + 4)) item_tag then
      let length := from_bytes_little (slice raw (pos st + 4) (pos st + 8)) in
      let out := printed st ++ [ItemAt (item_count st) (pos st) length] in
      if length =? 0 then
        scan_items fuel raw (mkScan (pos st + 8) (item_count st + 1) out)
      else if length =? 0xffffffff then
        scan_items fuel raw (mkScan (pos st + 8) (item_count st + 1) out)
      else
        Some (mkScan (pos st + 8 + length) (item_count st + 1) out)
    else if bytes_eqb (slice raw (pos st) (pos st + 4)) seq_delim_tag then
      Some (mkScan (pos st) (item_count st)
              (printed st ++ [SequenceDelimiterAt (pos st)]))
    else
      scan_items fuel raw (mkScan (pos st + 1) (item_count st) (printed st))
  else Some st.
Proof. reflexivity. Qed.

Lemma length_field_range (p : Z) :
  0 <= p ->
  0 <= from_bytes_little (slice raw (p + 4) (p + 8)) < 2 ^ 32.
Proof.
  intros Hp.
  pose proof (from_bytes_little_range (slice raw (p + 4) (p + 8))) as H.
  assert (Hl : len (slice raw (p + 4) (p + 8)) <= 4).
  { unfold len at 1. rewrite slice_length by lia.
    pose proof (len_nonneg raw). lia. }
  assert (256 ^ len (slice raw (p + 4) (p + 8)) <= 256 ^ 4)
    by (apply Z.pow_le_mono_r; lia).
  change (2 ^ 32) with (256 ^ 4). lia.
Qed.

Lemma item_window (p : Z) :
  0 <= p -> bytes_eqb (slice raw p (p + 4)) item_tag = true ->
  p + 4 <= len raw /\ slice raw p (p + 4) = item_tag.
Proof.
  intros Hp H. apply bytes_eqb_eq in H. split; [|exact H].
  apply slice_window_inside; [exact Hp|]. now rewrite H.
Qed.

(** Each turn of the loop either stops or moves [pos] forward, so the
    fuel of [encapsulation] is never used up. *)
Lemma scan_items_terminates (fuel : nat) (st : scan_state) :
  (Z.to_nat (Z.min (len raw) 200 - pos st) < fuel)%nat ->
  exists st', scan_items fuel raw st = Some st'.
Proof.
  revert st. induction fuel as [|fuel IH]; intros st Hfuel; [lia|].
  rewrite scan_items_S.
  destruct (Z.ltb_spec (pos st) (Z.min (len raw) 200)) as [Hlt|Hge];
    [|eauto].
  destruct (bytes_eqb (slice raw (pos st) (pos st + 4)) item_tag).
  - cbv zeta.
    destruct (_ =? 0); [apply IH; cbn [pos]; lia|].
    destruct (_ =? 0xffffffff); [apply IH; cbn [pos]; lia|eauto].
  - destruct (bytes_eqb _ seq_delim_tag); [eauto|].
    apply IH. cbn [pos]. lia.
Qed.

Lemma scan_items_invariant (fuel : nat) (st st' : scan_state) :
  scan_items fuel raw st = Some st' ->
  0 <= pos st ->
  Forall (scan_line_ok raw) (printed st) ->
  Forall (scan_line_ok raw) (printed st') /\ pos st <= pos st'.
Proof.
  revert st. induction fuel as [|fuel IH]; intros st Hrun Hpos Hok;
    [discriminate|].
  rewrite scan_items_S in Hrun.
  destruct (Z.ltb_spec (pos st) (Z.min (len raw) 200)) as [Hlt|Hge].
  2:{ injection Hrun as <-. split; [assumption|lia]. }
  destruct (bytes_eqb (slice raw (pos st) (pos st + 4)) item_tag) eqn:Hitem.
  - cbv zeta in Hrun.
    destruct (item_window _ Hpos Hitem) as [Hin Htag].
    pose proof (length_field_range _ Hpos) as Hrange.
    assert (Hout : Forall (scan_line_ok raw)
              (printed st ++
               [ItemAt (item_count st) (pos st)
                  (from_bytes_little
                     (slice raw (pos st + 4) (pos st + 8)))])).
    { apply Forall_app. split; [assumption|].
      constructor; [|constructor]. cbn [scan_line_ok].
      repeat split; try lia; auto. }
    destruct (_ =? 0).
    { apply IH in Hrun; cbn [pos printed] in *; [|lia|assumption].
      split; [tauto|lia]. }
    destruct (_ =? 0xffffffff).
    { apply IH in Hrun; cbn [pos printed] in *; [|lia|assumption].
      split; [tauto|lia]. }
    injection Hrun as <-. cbn [pos printed]. split; [assumption|lia].
  - destruct (bytes_eqb _ seq_delim_tag) eqn:Hdelim.
    + injection Hrun as <-. cbn [pos printed]. split; [|lia].
      apply Forall_app. split; [assumption|].
      constructor; [|constructor]. cbn [scan_line_ok].
      apply bytes_eqb_eq in Hdelim. split; [lia|assumption].
    + apply IH in Hrun; cbn [pos printed] in *; [|lia|assumption].
      split; [tauto|lia].
Qed.

Lemma encapsulation_returns : exists st, encapsulation raw = Some st.
Proof.
  unfold encapsulation. apply scan_items_terminates.
  unfold scan_fuel. cbn [pos].
  pose proof (len_nonneg raw). lia.
Qed.

Lemma encapsulation_lines (st : scan_state) :
  encapsulation raw = Some st -> Forall (scan_line_ok raw) (printed st).
Proof.
  unfold encapsulation. intros H.
  apply scan_items_invariant in H; cbn [pos printed];
    [tauto|lia|constructor].
Qed.

End Encapsulation.

(** ** Searching: [range], [find] and indexing *)

Section Searching.

Lemma find_seq_spec (f : Z -> bool) (k s : nat) :
  match List.find f (map Z.of_nat (seq s k)) with
  | Some i =>
    Z.of_nat s <= i < Z.of_nat (s + k) /\ f i = true /\
    forall j, Z.of_nat s <= j < i -> f j = false
  | None => forall j, Z.of_nat s <= j < Z.of_nat (s + k) -> f j = false
  end.
Proof.
  revert s. induction k as [|k IH]; intros s.
  - simpl. intros j Hj. lia.
  - cbn [seq map List.find].
    destruct (f (Z.of_nat s)) eqn:Hs.
    + repeat split; try lia; auto.
    + specialize (IH (S s)).
      destruct (List.find f (map Z.of_nat (seq (S s) k))) as [i|].
      * destruct IH as (Hi & Hfi & Hbefore).
        split; [lia|]. split; [assumption|].
        intros j Hj. destruct (Z.eq_dec j (Z.of_nat s)) as [->|Hne];
          [assumption|apply Hbefore; lia].
      * intros j Hj. destruct (Z.eq_dec j (Z.of_nat s)) as [->|Hne];
          [assumption|apply IH; lia].
Qed.

(** The [for i in range(n)] search stops at the first index that meets
    the test. *)
Lemma find_range_spec (f : Z -> bool) (n : Z) :
  match List.find f (range n) with
  | Some i =>
    0 <= i < n /\ f i = true /\ forall j, 0 <= j < i -> f j = false
  | None => forall j, 0 <= j < n -> f j = false
  end.
Proof.
  unfold range. pose proof (find_seq_spec f (Z.to_nat n) 0) as H.
  destruct (List.find f (map Z.of_nat (seq 0 (Z.to_nat n)))) as [i|].
  - destruct H as (Hi & Hfi & Hbefore).
    split; [lia|]. split; [assumption|].
    intros j Hj. apply Hbefore. lia.
  - intros j Hj. apply H. lia.
Qed.

Lemma find_range_first (f : Z -> bool) (n i : Z) :
  0 <= i < n -> f i = true ->
  (forall j, 0 <= j < i -> f j = false) ->
  List.find f (range n) = Some i.
Proof.
  intros Hi Hfi Hbefore. pose proof (find_range_spec f n) as H.
  destruct (List.find f (range n)) as [i'|].
  - destruct H as (Hi' & Hfi' & Hbefore'). f_equal.
    destruct (Z.lt_trichotomy i' i) as [Hlt|[Heq|Hgt]]; [|assumption|].
    + rewrite Hbefore in Hfi' by lia. discriminate.
    + rewrite Hbefore' in Hfi by lia. discriminate.
  - rewrite H in Hfi by lia. discriminate.
Qed.

Lemma slice_window (b : bytes) (k n : Z) :
  0 <= k -> 0 <= n ->
  slice b k (k + n) = firstn (Z.to_nat n) (skipn (Z.to_nat k) b).
Proof.
  intros Hk Hn. rewrite slice_nonneg by lia.
  pose proof (len_nonneg b) as Hlen. unfold len in *.
  destruct (Z.le_gt_cases k (Z.of_nat (List.length b))) as [Hin|Hout].
  - rewrite (Z.min_l k) by lia.
    destruct (Z.le_gt_cases (k + n) (Z.of_nat (List.length b))).
    + rewrite Z.min_l by lia. f_equal. lia.
    + rewrite Z.min_r by lia.
      rewrite !firstn_all2; auto; rewrite length_skipn; lia.
  - rewrite !Z.min_r by lia.
    rewrite !skipn_all2 by lia. now rewrite !firstn_nil.
Qed.

Lemma starts_with_firstn (needle l : bytes) :
  starts_with needle l = bytes_eqb (firstn (List.length needle) l) needle.
Proof.
  revert l. induction needle as [|x needle IH]; intros [|y l]; simpl; auto.
  rewrite IH. f_equal. destruct (Byte.eqb x y) eqn:E.
  - apply Byte.byte_dec_bl in E. subst. symmetry.
    now apply Byte.byte_dec_lb.
  - symmetry. destruct (Byte.eqb y x) eqn:E'; [|reflexivity].
    apply Byte.byte_dec_bl in E'. subst.
    rewrite Byte.byte_dec_lb in E by reflexivity. discriminate.
Qed.

Lemma starts_with_slice (needle b : bytes) (k : Z) :
  0 <= k ->
  starts_with needle (skipn (Z.to_nat k) b) =
  bytes_eqb (slice b k (k + len needle)) needle.
Proof.
  intros Hk. rewrite slice_window by (auto using len_nonneg).
  rewrite starts_with_firstn. unfold len. now rewrite Nat2Z.id.
Qed.

Lemma find_from_spec (needle b : bytes) (i : Z) :
  (find_from needle b i = -1 /\
   forall j, (j <= List.length b)%nat ->
             starts_with needle (skipn j b) = false) \/
  (exists k, find_from needle b i = i + Z.of_nat k /\
             (k <= List.length b)%nat /\
             starts_with needle (skipn k b) = true /\
             forall j, (j < k)%nat ->
                       starts_with needle (skipn j b) = false).
Proof.
  revert i. induction b as [|x b IH]; intros i.
  - cbn [find_from]. destruct (starts_with needle []) eqn:E.
    + right. exists 0%nat. repeat split; auto; try lia.
    + left. split; [reflexivity|]. intros j Hj. simpl in Hj.
      replace j with 0%nat by lia. exact E.
  - cbn [find_from]. destruct (starts_with needle (x :: b)) eqn:E.
    + right. exists 0%nat. repeat split; auto; try lia; simpl; lia.
    + destruct (IH (i + 1)) as [[Hr Hnone]|(k & Hr & Hk & Hat & Hbefore)].
      * left. split; [assumption|]. intros [|j] Hj; [exact E|].
        apply Hnone. simpl in Hj. lia.
      * right. exists (S k). repeat split; auto; try (simpl; lia).
        intros [|j] Hj; [exact E|]. apply Hbefore. lia.
Qed.


Lemma getitem_inside (b : bytes) (i : Z) :
  0 <= i < len b -> exists x, getitem b i = inr x.
Proof.
  intros Hi. unfold getitem.
  destruct (Z.ltb_spec i 0); [lia|].
  destruct (Z.leb_spec 0 i); [|lia].
  destruct (Z.ltb_spec i (len b)); [|lia]. cbn [andb].
  destruct (nth_error b (Z.to_nat i)) as [x|] eqn:E; [eauto|].
  apply nth_error_None in E. unfold len in Hi. lia.
Qed.

Lemma getitem_outside (b : bytes) (i : Z) :
  0 <= i -> len b <= i -> getitem b i = inl IndexError.
Proof.
  intros Hi Hout. unfold getitem.
  destruct (Z.ltb_spec i 0); [lia|].
  destruct (Z.ltb_spec i (len b)); [lia|].
  now rewrite andb_false_r.
Qed.

End Searching.

(** ** The first atom and the avcC lookup *)

Section VideoCheck.

Variable raw : bytes.

Lemma find_video_start_none :
  (forall j, 0 <= j < Z.min (len raw) 200 ->
             is_signature (slice raw j (j + 4)) = false) ->
  find_video_start raw = None.
Proof.
  intros Hnone. unfold find_video_start.
  pose proof (find_range_spec
                (fun i => is_signature (slice raw i (i + 4)))
                (Z.min (len raw) 200)) as H.
  destruct (List.find _ _) as [i|]; [|reflexivity].
  destruct H as (Hi & Hfi & _). rewrite Hnone in Hfi by lia. discriminate.
Qed.

Lemma first_atom_at (i : Z) :
  4 <= i < Z.min (len raw) 200 ->
  is_signature (slice raw i (i + 4)) = true ->
  (forall j, 0 <= j < i -> is_signature (slice raw j (j + 4)) = false) ->
  find_video_start raw = Some (i - 4) /\
  first_atom raw =
  if i =? 4 then None
  else Some (mkAtom (i - 4) (from_bytes_big (slice raw (i - 4) i))
                    (slice raw i (i + 4))).
Proof.
  intros Hi Hat Hbefore.
  assert (Hvs : find_video_start raw = Some (i - 4)).
  { unfold find_video_start.
    rewrite (find_range_first _ _ i); auto. lia. }
  split; [exact Hvs|]. unfold first_atom. rewrite Hvs.
  unfold video_start_ok.
  destruct (Z.eqb_spec i 4) as [->|Hne].
  - reflexivity.
  - destruct (Z.eqb_spec (i - 4) 0); [lia|].
    destruct (Z.gtb_spec (i - 4) 0); [|lia]. cbn [negb andb].
    replace (i - 4 + 4) with i by lia.
    replace (i - 4 + 8) with (i + 4) by lia. reflexivity.
Qed.

(** The atom check reads a whole size field: the header it reports lies
    inside the buffer. *)
Lemma size_field_range (i : Z) :
  4 <= i <= len raw ->
  List.length (slice raw (i - 4) i) = 4%nat /\
  0 <= from_bytes_big (slice raw (i - 4) i) < 2 ^ 32.
Proof.
  intros Hi.
  assert (Hl : List.length (slice raw (i - 4) i) = 4%nat).
  { rewrite slice_length by lia. lia. }
  split; [exact Hl|].
  pose proof (from_bytes_big_range (slice raw (i - 4) i)) as H.
  unfold len in H. rewrite Hl in H. exact H.
Qed.

Lemma avc_check_cases :
  avc_check raw =
  let avc_pos := find avcC raw in
  if avc_pos >? 0 then
    match getitem raw (avc_pos + 5) with
    | inl e => ([], inl e)
    | inr profile_idc =>
      match getitem raw (avc_pos + 7) with
      | inl e => ([], inl e)
      | inr level_idc =>
        ([H264Profile (profile_name (byte_val profile_idc))
                      (byte_val profile_idc);
          H264Level (format_level (byte_val level_idc))], inr tt)
      end
    end
  else ([NoAvcC], inr tt).
Proof.
  unfold avc_check. cbv zeta.
  destruct (find avcC raw >? 0); [|reflexivity].
  destruct (getitem raw (find avcC raw + 5)); [reflexivity|].
  destruct (getitem raw (find avcC raw + 7)); reflexivity.
Qed.

Lemma video_stream_check_cases :
  video_stream_check raw =
  match first_atom raw with
  | Some a =>
    FirstAtom (atom_size a) (atom_type a) :: try_except (avc_check raw) handler
  | None => []
  end.
Proof.
  unfold video_stream_check, video_body.
  destruct (first_atom raw) as [a|]; [|reflexivity].
  destruct (avc_check raw) as [out [e|[]]]; reflexivity.
Qed.

(** A truncated avcC record: the lookup raises and prints nothing. *)
Lemma avc_check_truncated :
  0 < find avcC raw -> len raw <= find avcC raw + 7 ->
  avc_check raw = ([], inl IndexError).
Proof.
  intros Hpos Hshort. rewrite avc_check_cases. cbv zeta.
  destruct (Z.gtb_spec (find avcC raw) 0); [|lia].
  destruct (Z.lt_ge_cases (find avcC raw + 5) (len raw)) as [Hin|Hout].
  - destruct (getitem_inside raw (find avcC raw + 5)) as [x ->]; [lia|].
    now rewrite getitem_outside by lia.
  - now rewrite getitem_outside by lia.
Qed.

Lemma avc_check_complete :
  0 < find avcC raw -> find avcC raw + 7 < len raw ->
  exists profile_idc level_idc,
    getitem raw (find avcC raw + 5) = inr profile_idc /\
    getitem raw (find avcC raw + 7) = inr level_idc /\
    avc_check raw =
    ([H264Profile (profile_name (byte_val profile_idc))
                  (byte_val profile_idc);
      H264Level (format_level (byte_val level_idc))], inr tt).
Proof.
  intros Hpos Hin. rewrite avc_check_cases. cbv zeta.
  destruct (Z.gtb_spec (find avcC raw) 0); [|lia].
  destruct (getitem_inside raw (find avcC raw + 5)) as [x Hx]; [lia|].
  destruct (getitem_inside raw (find avcC raw + 7)) as [y Hy]; [lia|].
  exists x, y. rewrite Hx, Hy. auto.
Qed.

Lemma avc_check_absent :
  find avcC raw <= 0 -> avc_check raw = ([NoAvcC], inr tt).
Proof.
  intros Hpos. rewrite avc_check_cases. cbv zeta.
  destruct (Z.gtb_spec (find avcC raw) 0); [lia|reflexivity].
Qed.

(** The handler's line is printed exactly when an atom was found and the
    avcC record is cut short. *)
Lemma video_fault_iff :
  (exists e, In (VideoCheckError e) (video_stream_check raw)) <->
  first_atom raw <> None /\
  0 < find avcC raw /\ len raw <= find avcC raw + 7.
Proof.
  rewrite video_stream_check_cases.
  destruct (first_atom raw) as [a|].
  2:{ split; [intros [e []]|intros [H _]; congruence]. }
  destruct (Z.lt_ge_cases 0 (find avcC raw)) as [Hpos|Hnpos].
  - destruct (Z.lt_ge_cases (find avcC raw + 7) (len raw)) as [Hin|Hout].
    + destruct (avc_check_complete Hpos Hin) as (x & y & _ & _ & ->).
      cbn [try_except]. split.
      * intros [e [H|[H|[H|[]]]]]; discriminate.
      * lia.
    + rewrite avc_check_truncated by assumption.
      cbn [try_except handler app]. split.
      * intros _. repeat split; [congruence|lia|lia].
      * intros _. exists IndexError. right. now left.
  - rewrite avc_check_absent by assumption. cbn [try_except]. split.
    + intros [e [H|[H|[]]]]; discriminate.
    + lia.
Qed.

End VideoCheck.

(** ** Lines of the video stream check *)

Section VideoLines.

Variable raw : bytes.

Lemma signature_check_no_error (e : exn) :
  ~ In (VideoCheckError e) (signature_check raw).
Proof.
  unfold signature_check. destruct (contains ftyp (slice_to raw 100)).
  - intros [H|[H|[]]]; discriminate.
  - intros [H|[]]; discriminate.
Qed.

Lemma scan_lines_no_error (st : scan_state) (e : exn) :
  encapsulation raw = Some st -> ~ In (VideoCheckError e) (printed st).
Proof.
  intros Hrun Hin. apply encapsulation_lines in Hrun.
  rewrite Forall_forall in Hrun. exact (Hrun _ Hin).
Qed.

(** When the avcC lookup prints no configuration, neither does the video
    stream check. *)
Lemma video_lines_without_avc :
  Forall (fun l => is_avc_line l = false) (fst (avc_check raw)) ->
  Forall (fun l => is_avc_line l = false) (video_stream_check raw).
Proof.
  intros Havc. rewrite video_stream_check_cases.
  destruct (first_atom raw) as [a|]; [|constructor].
  constructor; [reflexivity|].
  destruct (avc_check raw) as [out [e|[]]]; cbn [try_except fst] in *.
  - apply Forall_app. split; [assumption|]. repeat constructor.
  - assumption.
Qed.

End VideoLines.

(** * The claims *)

(** ** C1: totality of the analysis *)

(** C1, as stated, fails: on [cut_avcC] the avcC lookup indexes the buffer
    out of range, [IndexError] is raised, and the report carries the
    handler's line. *)
Lemma C1_fault_on_cut_avcC :
  video_body cut_avcC = ([FirstAtom 16 ftyp], inl IndexError) /\
  getitem cut_avcC (find avcC cut_avcC + 5) = inl IndexError /\
  exists r, analyze_dicom cut_avcC = Some r /\
            video_lines r = [FirstAtom 16 ftyp; VideoCheckError IndexError].
Proof.
  split; [vm_compute; reflexivity|].
  split; [vm_compute; reflexivity|].
  eexists. split; vm_compute; reflexivity.
Qed.

(** C1, amended: for every byte buffer, the empty one included, the analysis
    terminates and returns a report, and no exception leaves it.  An
    out-of-range index does occur, in the avcC lookup: the report carries
    the handler's error line exactly when an atom was found, the avcC tag
    was found at a position above 0 and fewer than eight bytes remain from
    the tag's first byte. *)
Theorem C1_analyze_total (raw : bytes) :
  exists r, analyze_dicom raw = Some r /\
    ((exists e, In (VideoCheckError e) (all_lines r)) <->
     (first_atom raw <> None /\
      0 < find avcC raw /\ len raw <= find avcC raw + 7)).
Proof.
  destruct (encapsulation_returns raw) as [st Hst].
  unfold analyze_dicom. rewrite Hst. eexists. split; [reflexivity|].
  unfold all_lines. cbn [signature_lines encapsulation_state video_lines].
  rewrite <- video_fault_iff. split.
  - intros [e He]. exists e.
    apply in_app_or in He. destruct He as [He|He].
    { exfalso. exact (signature_check_no_error raw e He). }
    apply in_app_or in He. destruct He as [He|He]; [|exact He].
    exfalso. exact (scan_lines_no_error raw st e Hst He).
  - intros [e He]. exists e. apply in_or_app. right.
    apply in_or_app. now right.
Qed.

(** ** C2: the avcC lookup and the atom check *)

(** C2, as stated, fails: [bare_avcC] holds a complete avcC record that the
    lookup decodes, but no [ftyp] or [mdat], and the video stream check
    prints nothing. *)
Lemma C2_avcC_dropped_without_atom :
  avc_check bare_avcC = ([H264Profile "High" 100; H264Level "4.1"], inr tt) /\
  first_atom bare_avcC = None /\
  video_stream_check bare_avcC = [] /\
  exists r, analyze_dicom bare_avcC = Some r /\ video_lines r = [].
Proof.
  repeat split; try (vm_compute; reflexivity).
  eexists. split; vm_compute; reflexivity.
Qed.

(** C2, amended: the avcC lookup runs over the whole buffer only behind the
    atom check.  When no atom is reported - in particular when no [ftyp] or
    [mdat] tag starts in the first 200 bytes - the video stream check
    prints nothing; when an atom is reported it prints the atom and then
    what the lookup gives on the whole buffer.  The encapsulation scan has
    no part in either: the report's video lines are those of the video
    stream check on the buffer. *)
Theorem C2_avc_lookup_behind_atom_check (raw : bytes) :
  (first_atom raw = None -> video_stream_check raw = []) /\
  ((forall j, 0 <= j < Z.min (len raw) 200 ->
              is_signature (slice raw j (j + 4)) = false) ->
   first_atom raw = None) /\
  (forall a, first_atom raw = Some a ->
             video_stream_check raw =
             FirstAtom (atom_size a) (atom_type a)
               :: try_except (avc_check raw) handler) /\
  (forall r, analyze_dicom raw = Some r ->
             video_lines r = video_stream_check raw).
Proof.
  repeat split.
  - intros H. now rewrite video_stream_check_cases, H.
  - intros H. unfold first_atom. now rewrite find_video_start_none.
  - intros a H. now rewrite video_stream_check_cases, H.
  - intros r. unfold analyze_dicom.
    destruct (encapsulation raw); [|discriminate].
    now intros [= <-].
Qed.

(** On [bare_avcC] no atom is reported and nothing is printed; on
    [sample_box] the atom is printed and the lookup follows. *)
Lemma C2_avc_lookup_behind_atom_check_witness :
  video_stream_check bare_avcC = [] /\
  video_stream_check sample_box =
  FirstAtom 24 ftyp :: try_except (avc_check sample_box) handler.
Proof.
  split.
  - apply (C2_avc_lookup_behind_atom_check bare_avcC).
    vm_compute. reflexivity.
  - apply (proj1 (proj2 (proj2 (C2_avc_lookup_behind_atom_check sample_box)))
             (mkAtom 1 24 ftyp)).
    vm_compute. reflexivity.
Defined.

(** ** C3: the header of the first atom *)

(** C3, as stated, fails at its own example: with [ftyp] at index 4 the
    header starts at offset 0, [video_start] is 0, and the guard of line 110
    rejects it. *)
Lemma C3_no_atom_at_offset_zero :
  slice header_at_zero 0 8 = [x00; x00; x00; x18; x66; x74; x79; x70] /\
  find_video_start header_at_zero = Some 0 /\
  first_atom header_at_zero = None /\
  video_stream_check header_at_zero = [].
Proof. repeat split; vm_compute; reflexivity. Qed.

(** C3, amended: when the first [ftyp] or [mdat] tag within the search limit
    is at index [i >= 5], the atom check reports the atom at offset [i - 4]
    whose size is the big-endian value of the four bytes [raw[i-4:i]] and
    whose type is the tag, and prints it first; when the tag is at index 4,
    so that the header would start at offset 0, no atom is reported. *)
Theorem C3_first_atom_header (raw : bytes) (i : Z) :
  4 <= i < Z.min (len raw) 200 ->
  is_signature (slice raw i (i + 4)) = true ->
  (forall j, 0 <= j < i -> is_signature (slice raw j (j + 4)) = false) ->
  find_video_start raw = Some (i - 4) /\
  first_atom raw =
    (if i =? 4 then None
     else Some (mkAtom (i - 4) (from_bytes_big (slice raw (i - 4) i))
                       (slice raw i (i + 4)))) /\
  List.length (slice raw (i - 4) i) = 4%nat /\
  (slice raw i (i + 4) = ftyp \/ slice raw i (i + 4) = mdat) /\
  hd_error (video_stream_check raw) =
    (if i =? 4 then None
     else Some (FirstAtom (from_bytes_big (slice raw (i - 4) i))
                          (slice raw i (i + 4)))).
Proof.
  intros Hi Hat Hbefore.
  destruct (first_atom_at raw i Hi Hat Hbefore) as [Hvs Hatom].
  split; [exact Hvs|]. split; [exact Hatom|].
  split; [apply size_field_range; lia|].
  split.
  - unfold is_signature in Hat. apply orb_true_iff in Hat.
    destruct Hat as [H|H]; apply bytes_eqb_eq in H; auto.
  - rewrite video_stream_check_cases, Hatom.
    destruct (i =? 4); reflexivity.
Qed.

(** [sample_box] has its tag at index 5, [header_at_zero] at index 4. *)
Lemma C3_first_atom_header_witness :
  first_atom sample_box = Some (mkAtom 1 24 ftyp) /\
  first_atom header_at_zero = None.
Proof.
  split.
  - apply (C3_first_atom_header sample_box 5).
    + vm_compute. split; [discriminate|reflexivity].
    + vm_compute. reflexivity.
    + intros j Hj.
      assert (Hc : j = 0 \/ j = 1 \/ j = 2 \/ j = 3 \/ j = 4) by lia.
      destruct Hc as [->|[->|[->|[->| ->]]]]; vm_compute; reflexivity.
  - apply (C3_first_atom_header header_at_zero 4).
    + vm_compute. split; [discriminate|reflexivity].
    + vm_compute. reflexivity.
    + intros j Hj.
      assert (Hc : j = 0 \/ j = 1 \/ j = 2 \/ j = 3) by lia.
      destruct Hc as [->|[->|[->| ->]]]; vm_compute; reflexivity.
Defined.

(** ** C4: what a recorded item says about the buffer *)

(** C4, as stated, fails: [overlong_item] declares five payload bytes and
    holds none, and a lone item tag is recorded with length 0 although
    fewer than eight bytes remain; both items are recorded. *)
Lemma C4_item_past_the_end :
  encapsulation overlong_item = Some (mkScan 13 1 [ItemAt 0 0 5]) /\
  5 <> 0xffffffff /\ ~ (0 + 8 + 5 <= len overlong_item) /\
  encapsulation item_tag = Some (mkScan 8 1 [ItemAt 0 0 0]) /\
  ~ (0 + 8 + 0 <= len item_tag).
Proof.
  repeat split; try (vm_compute; reflexivity); try discriminate;
    vm_compute; intros H; apply H; reflexivity.
Qed.

(** C4, amended: every item the scan records starts inside the first 200
    bytes, its four tag bytes lie inside the buffer, and its length is the
    little-endian value of the bytes present at [offset+4 .. offset+8], below
    2^32.  No bound ties [offset + 8 + length] to the buffer length. *)
Theorem C4_recorded_item (raw : bytes) (st : scan_state) (c p n : Z) :
  encapsulation raw = Some st ->
  In (ItemAt c p n) (printed st) ->
  0 <= p < 200 /\ p + 4 <= len raw /\
  slice raw p (p + 4) = item_tag /\
  n = from_bytes_little (slice raw (p + 4) (p + 8)) /\
  0 <= n < 2 ^ 32.
Proof.
  intros Hrun Hin. apply encapsulation_lines in Hrun.
  rewrite Forall_forall in Hrun. exact (Hrun _ Hin).
Qed.

(** The item recorded on [overlong_item]. *)
Lemma C4_recorded_item_witness :
  0 <= 0 < 200 /\ 0 + 4 <= len overlong_item /\
  slice overlong_item 0 (0 + 4) = item_tag /\
  5 = from_bytes_little (slice overlong_item (0 + 4) (0 + 8)) /\
  0 <= 5 < 2 ^ 32.
Proof.
  apply (C4_recorded_item overlong_item (mkScan 13 1 [ItemAt 0 0 5]) 0 0 5).
  - vm_compute. reflexivity.
  - simpl. left. reflexivity.
Defined.

(** ** C5: a truncated avcC record *)

(** C5, as stated, fails: on [short_avcC] the tag is at 9, the buffer has
    16 bytes, and reading offset +7 raises [IndexError]; the handler then
    prints its line. *)
Lemma C5_truncated_record_raises :
  find avcC short_avcC = 9 /\ len short_avcC = 16 /\
  getitem short_avcC (9 + 7) = inl IndexError /\
  avc_check short_avcC = ([], inl IndexError) /\
  video_stream_check short_avcC =
  [FirstAtom 8 mdat; VideoCheckError IndexError].
Proof. repeat split; vm_compute; reflexivity. Qed.

(** C5, amended: when the avcC tag is found at [avc_pos] and
    [avc_pos + 7 >= len(raw)], no AVC configuration is printed.  The lookup
    runs only behind the atom check.  With an atom reported and
    [avc_pos > 0], the lookup indexes out of range and raises [IndexError]
    having printed nothing, and the handler's line follows the atom; with an
    atom reported and [avc_pos = 0], the tag is taken as not found and that
    line follows the atom; with no atom reported, nothing is printed. *)
Theorem C5_truncated_avcC (raw : bytes) :
  0 <= find avcC raw -> len raw <= find avcC raw + 7 ->
  avc_check raw =
    (if find avcC raw =? 0 then ([NoAvcC], inr tt)
     else ([], inl IndexError)) /\
  video_stream_check raw =
    match first_atom raw with
    | None => []
    | Some a =>
      [FirstAtom (atom_size a) (atom_type a);
       if find avcC raw =? 0 then NoAvcC else VideoCheckError IndexError]
    end /\
  Forall (fun l => is_avc_line l = false) (video_stream_check raw).
Proof.
  intros Hfound Hshort.
  assert (Hcheck : avc_check raw =
            if find avcC raw =? 0 then ([NoAvcC], inr tt)
            else ([], inl IndexError)).
  { destruct (Z.eqb_spec (find avcC raw) 0) as [H0|Hn0].
    - apply avc_check_absent. lia.
    - apply avc_check_truncated; lia. }
  split; [exact Hcheck|]. split.
  - rewrite video_stream_check_cases, Hcheck.
    destruct (first_atom raw) as [a|]; [|reflexivity].
    destruct (find avcC raw =? 0); reflexivity.
  - apply video_lines_without_avc. rewrite Hcheck.
    destruct (find avcC raw =? 0); repeat constructor.
Qed.

(** [short_avcC]: an [mdat] atom at offset 1, the tag at 9, sixteen bytes. *)
Lemma C5_truncated_avcC_witness :
  0 <= find avcC short_avcC /\ len short_avcC <= find avcC short_avcC + 7 /\
  first_atom short_avcC = Some (mkAtom 1 8 mdat) /\
  video_stream_check short_avcC =
  [FirstAtom 8 mdat; VideoCheckError IndexError].
Proof.
  assert (Hfound : 0 <= find avcC short_avcC)
    by (vm_compute; discriminate).
  assert (Hshort : len short_avcC <= find avcC short_avcC + 7)
    by (vm_compute; discriminate).
  split; [exact Hfound|]. split; [exact Hshort|].
  split; [vm_compute; reflexivity|].
  destruct (C5_truncated_avcC short_avcC Hfound Hshort) as (_ & Hlines & _).
  exact Hlines.
Defined.

(** ** C6: a size field equal to 1 *)

(** C6, as stated, fails: in [extended_size] the size field is 1 and the
    eight bytes after the tag hold 32; the atom is reported with size 1. *)
Lemma C6_size_one_kept :
  from_bytes_big (slice extended_size 1 5) = 1 /\
  slice extended_size 5 9 = ftyp /\
  from_bytes_big (slice extended_size (5 + 4) (5 + 12)) = 32 /\
  first_atom extended_size = Some (mkAtom 1 1 ftyp) /\
  video_stream_check extended_size = [FirstAtom 1 ftyp; NoAvcC].
Proof. repeat split; vm_compute; reflexivity. Qed.

(** C6, amended: when the size field in front of the first tag (at index
    [i >= 5]) equals 1, the atom check reports the size 1 as read, whatever
    the bytes [raw[i+4:i+12]] hold; the script has no extended-size form. *)
Theorem C6_size_one_reported (raw : bytes) (i : Z) :
  5 <= i < Z.min (len raw) 200 ->
  is_signature (slice raw i (i + 4)) = true ->
  (forall j, 0 <= j < i -> is_signature (slice raw j (j + 4)) = false) ->
  from_bytes_big (slice raw (i - 4) i) = 1 ->
  first_atom raw = Some (mkAtom (i - 4) 1 (slice raw i (i + 4))) /\
  hd_error (video_stream_check raw) = Some (FirstAtom 1 (slice raw i (i + 4))).
Proof.
  intros Hi Hat Hbefore Hone.
  destruct (first_atom_at raw i) as [_ Hatom]; [lia|assumption..|].
  destruct (Z.eqb_spec i 4); [lia|]. rewrite Hone in Hatom.
  split; [exact Hatom|].
  now rewrite video_stream_check_cases, Hatom.
Qed.

(** [extended_size]: size field 1 in front of the tag at index 5. *)
Lemma C6_size_one_reported_witness :
  first_atom extended_size =
  Some (mkAtom (5 - 4) 1 (slice extended_size 5 (5 + 4))) /\
  hd_error (video_stream_check extended_size) =
  Some (FirstAtom 1 (slice extended_size 5 (5 + 4))).
Proof.
  apply (C6_size_one_reported extended_size 5).
  - vm_compute. split; [discriminate|reflexivity].
  - vm_compute. reflexivity.
  - intros j Hj.
    assert (Hc : j = 0 \/ j = 1 \/ j = 2 \/ j = 3 \/ j = 4) by lia.
    destruct Hc as [->|[->|[->|[->| ->]]]]; vm_compute; reflexivity.
  - vm_compute. reflexivity.
Defined.

(** ** C7: profile and level *)




(** ** C8: the first sized fragment *)

(** C8: a buffer that begins with the item tag, a four-byte little-endian
    length [L] other than 0 and 0xFFFFFFFF, and [L] payload bytes gives
    exactly one recorded item, at offset 0 with length [L]; the scan stops
    with [pos] just past the payload, which is [raw[8:8+L]], whatever
    follows. *)
Theorem C8_first_fragment (raw length_field payload rest : bytes) (L : Z) :
  raw = item_tag ++ length_field ++ payload ++ rest ->
  List.length length_field = 4%nat ->
  from_bytes_little length_field = L ->
  L <> 0 -> L <> 0xffffffff ->
  len payload = L ->
  encapsulation raw = Some (mkScan (8 + L) 1 [ItemAt 0 0 L]) /\
  slice raw 8 (8 + L) = payload.
Proof.
  intros Hraw Hfield HL Hnz Hdef Hpay.
  destruct length_field as [|b0 [|b1 [|b2 [|b3 [|]]]]]; try discriminate.
  assert (Hlen : len raw = 8 + L + len rest).
  { rewrite Hraw, !len_app, Hpay. unfold len. simpl List.length. lia. }
  pose proof (len_nonneg payload) as HLpos.
  pose proof (len_nonneg rest) as Hrest.
  assert (Htag : slice raw 0 (0 + 4) = item_tag).
  { rewrite slice_window by lia. rewrite Hraw. reflexivity. }
  assert (Hlf : slice raw (0 + 4) (0 + 8) = [b0; b1; b2; b3]).
  { change (0 + 8) with (4 + 4). change (0 + 4) with 4.
    rewrite slice_window by lia. rewrite Hraw. reflexivity. }
  assert (Hpl : slice raw 8 (8 + L) = payload).
  { rewrite slice_window by lia. rewrite Hraw.
    change (skipn (Z.to_nat 8)
              (item_tag ++ [b0; b1; b2; b3] ++ payload ++ rest))
      with (payload ++ rest).
    rewrite <- Hpay. unfold len. rewrite Nat2Z.id.
    rewrite firstn_app, Nat.sub_diag, firstn_all, firstn_O.
    apply app_nil_r. }
  split; [|exact Hpl].
  unfold encapsulation, scan_fuel. rewrite scan_items_S.
  cbn [pos item_count printed].
  destruct (Z.ltb_spec 0 (Z.min (len raw) 200)); [|lia].
  rewrite Htag, bytes_eqb_refl. cbv zeta. rewrite Hlf, HL.
  destruct (Z.eqb_spec L 0); [contradiction|].
  destruct (Z.eqb_spec L 0xffffffff); [contradiction|].
  reflexivity.
Qed.

(** [one_fragment]: four payload bytes and a second item behind them. *)
Lemma C8_first_fragment_witness :
  encapsulation one_fragment = Some (mkScan (8 + 4) 1 [ItemAt 0 0 4]) /\
  slice one_fragment 8 (8 + 4) = [x00; x00; x00; x18].
Proof.
  apply (C8_first_fragment one_fragment [x04; x00; x00; x00]
           [x00; x00; x00; x18]
           (item_tag ++ [x02; x00; x00; x00; x01; x02]) 4).
  - reflexivity.
  - reflexivity.
  - vm_compute. reflexivity.
  - discriminate.
  - discriminate.
  - vm_compute. reflexivity.
Defined.

(** ** C9: a leading sequence delimiter *)

(** C9: a buffer that begins with the sequence delimiter tag gives no item;
    the scan prints the delimiter at offset 0 and stops there, with [pos]
    still 0, whatever follows. *)
Theorem C9_delimiter_first (rest : bytes) :
  encapsulation (seq_delim_tag ++ rest) =
  Some (mkScan 0 0 [SequenceDelimiterAt 0]).
Proof.
  assert (Htag : slice (seq_delim_tag ++ rest) 0 (0 + 4) = seq_delim_tag).
  { rewrite slice_window by lia. reflexivity. }
  assert (Hlen : len (seq_delim_tag ++ rest) = 4 + len rest).
  { rewrite len_app. reflexivity. }
  pose proof (len_nonneg rest) as Hrest.
  unfold encapsulation, scan_fuel. rewrite scan_items_S.
  cbn [pos item_count printed].
  destruct (Z.ltb_spec 0 (Z.min (len (seq_delim_tag ++ rest)) 200)); [|lia].
  rewrite Htag. reflexivity.
Qed.

(** ** C10: an avcC tag at offset 0 *)

(** C10: when the buffer starts with the bytes of the avcC tag, [find]
    returns 0, the lookup takes the tag as absent, and no AVC configuration
    is printed by the lookup or by the video stream check, however many
    bytes follow. *)
Theorem C10_tag_at_offset_zero (rest : bytes) :
  find avcC (avcC ++ rest) = 0 /\
  avc_check (avcC ++ rest) = ([NoAvcC], inr tt) /\
  Forall (fun l => is_avc_line l = false)
         (video_stream_check (avcC ++ rest)).
Proof.
  assert (Hfind : find avcC (avcC ++ rest) = 0) by reflexivity.
  assert (Hcheck : avc_check (avcC ++ rest) = ([NoAvcC], inr tt)).
  { apply avc_check_absent. rewrite Hfind. lia. }
  split; [exact Hfind|]. split; [exact Hcheck|].
  apply video_lines_without_avc. rewrite Hcheck. repeat constructor.
Qed.

(** * Further properties of the script *)

(** ** More on slices and [find] *)

Section MoreSearching.

Lemma slice_between (b : bytes) (lo hi : Z) :
  0 <= lo <= hi ->
  slice b lo hi = firstn (Z.to_nat (hi - lo)) (skipn (Z.to_nat lo) b).
Proof.
  intros H. replace hi with (lo + (hi - lo)) at 1 by lia.
  apply slice_window; lia.
Qed.

Lemma len_firstn (n : nat) (b : bytes) :
  len (firstn n b) = Z.min (Z.of_nat n) (len b).
Proof. unfold len. rewrite length_firstn. lia. Qed.

(** A window that ends inside a prefix is the same in the prefix and in
    the whole buffer. *)
Lemma slice_firstn (n : nat) (b : bytes) (lo hi : Z) :
  0 <= lo <= hi -> hi <= Z.of_nat n ->
  slice (firstn n b) lo hi = slice b lo hi.
Proof.
  intros Hlo Hhi. rewrite !slice_between by lia.
  rewrite skipn_firstn_comm, firstn_firstn. f_equal. lia.
Qed.

Lemma slice_to_firstn (b : bytes) (n : Z) :
  0 <= n -> slice_to b n = firstn (Z.to_nat n) b.
Proof.
  intros Hn. unfold slice_to. rewrite slice_between by lia.
  change (Z.to_nat 0) with 0%nat. rewrite skipn_O. f_equal. lia.
Qed.

(** A window equal to a four-byte tag lies inside the buffer. *)
Lemma tag_window_inside (b tag : bytes) (p : Z) :
  0 <= p -> List.length tag = 4%nat -> slice b p (p + 4) = tag ->
  p + 4 <= len b.
Proof.
  intros Hp Htag Hw. apply slice_window_inside; [exact Hp|].
  now rewrite Hw.
Qed.

Lemma bytes_eqb_neq_false (a b : bytes) : a <> b -> bytes_eqb a b = false.
Proof.
  intros H. destruct (bytes_eqb a b) eqn:E; [|reflexivity].
  apply bytes_eqb_eq in E. contradiction.
Qed.

(** [b.find(needle)] in terms of windows. *)
Lemma find_cases (needle b : bytes) :
  (find needle b = -1 /\
   forall j, 0 <= j <= len b -> slice b j (j + len needle) <> needle) \/
  (0 <= find needle b <= len b /\
   slice b (find needle b) (find needle b + len needle) = needle /\
   forall j, 0 <= j < find needle b ->
             slice b j (j + len needle) <> needle).
Proof.
  assert (Hsw : forall j : nat,
             starts_with needle (skipn j b) =
             bytes_eqb (slice b (Z.of_nat j) (Z.of_nat j + len needle))
                       needle).
  { intros j. rewrite <- starts_with_slice by lia. now rewrite Nat2Z.id. }
  unfold find.
  destruct (find_from_spec needle b 0)
    as [[Hr Hnone]|(r & Hr & Hle & Hat & Hbefore)].
  - left. split; [exact Hr|]. intros j Hj Hw.
    specialize (Hnone (Z.to_nat j)). rewrite Hsw in Hnone.
    rewrite Z2Nat.id in Hnone by lia. rewrite Hw, bytes_eqb_refl in Hnone.
    unfold len in Hj. assert (true = false) by (apply Hnone; lia).
    discriminate.
  - right. rewrite Hr. rewrite Hsw in Hat. apply bytes_eqb_eq in Hat.
    unfold len at 1. split; [lia|]. split; [exact Hat|].
    intros j Hj Hw. specialize (Hbefore (Z.to_nat j)).
    rewrite Hsw in Hbefore. rewrite Z2Nat.id in Hbefore by lia.
    rewrite Hw, bytes_eqb_refl in Hbefore.
    assert (true = false) by (apply Hbefore; lia). discriminate.
Qed.

(** For a four-byte tag, [find] returns [-1] exactly when no window of the
    buffer holds the tag. *)
Lemma find_tag_absent (tag b : bytes) :
  List.length tag = 4%nat ->
  (forall j, 0 <= j -> slice b j (j + 4) <> tag) ->
  find tag b = -1.
Proof.
  intros Htag Hnone.
  assert (Hl : len tag = 4) by (unfold len; rewrite Htag; reflexivity).
  destruct (find_cases tag b) as [[Hr _]|(Hr & Hat & _)]; [exact Hr|].
  rewrite Hl in Hat. exfalso. apply (Hnone (find tag b)); [lia|exact Hat].
Qed.

(** The first window that holds a four-byte tag is where [find] lands. *)
Lemma find_tag_first (tag b : bytes) (q : Z) :
  List.length tag = 4%nat ->
  0 <= q -> slice b q (q + 4) = tag ->
  0 <= find tag b <= q /\
  slice b (find tag b) (find tag b + 4) = tag /\
  forall j, 0 <= j < find tag b -> slice b j (j + 4) <> tag.
Proof.
  intros Htag Hq Hw.
  assert (Hl : len tag = 4) by (unfold len; rewrite Htag; reflexivity).
  pose proof (tag_window_inside b tag q Hq Htag Hw) as Hin.
  destruct (find_cases tag b) as [[_ Hnone]|(Hr & Hat & Hbefore)];
    rewrite Hl in *.
  - exfalso. apply (Hnone q); [lia|exact Hw].
  - split; [|split; assumption].
    destruct (Z.le_gt_cases (find tag b) q); [lia|].
    exfalso. apply (Hbefore q); [lia|exact Hw].
Qed.

End MoreSearching.

(** ** The MP4 signature check (lines 62-71) *)

Section SignatureCheck.

Variable raw : bytes.

Lemma contains_prefix_iff :
  contains ftyp (slice_to raw 100) = true <->
  exists q, 0 <= q /\ q + 4 <= 100 /\ slice raw q (q + 4) = ftyp.
Proof.
  rewrite slice_to_firstn by lia. change (Z.to_nat 100) with 100%nat.
  unfold contains. split.
  - intros Hc.
    destruct (find_cases ftyp (firstn 100 raw))
      as [[Hr _]|(Hr & Hat & _)].
    { rewrite Hr in Hc. discriminate. }
    change (len ftyp) with 4 in Hat.
    set (r := find ftyp (firstn 100 raw)) in *.
    assert (Hin : r + 4 <= len (firstn 100 raw)).
    { apply (tag_window_inside _ ftyp); [lia|reflexivity|exact Hat]. }
    rewrite len_firstn in Hin.
    exists r. split; [lia|]. split; [lia|].
    rewrite <- Hat. symmetry. apply slice_firstn; lia.
  - intros (q & Hq & Hq100 & Hw).
    assert (Hpre : slice (firstn 100 raw) q (q + 4) = ftyp).
    { rewrite slice_firstn by lia. exact Hw. }
    destruct (find_tag_first ftyp (firstn 100 raw) q) as [Hr _];
      [reflexivity|lia|exact Hpre|].
    destruct (Z.eqb_spec (find ftyp (firstn 100 raw)) (-1)); [lia|].
    reflexivity.
Qed.

Lemma signature_found_facts (p : Z) :
  In (Mp4FtypFound p) (signature_check raw) ->
  p = find ftyp raw /\
  0 <= p /\ p + 4 <= Z.min (len raw) 100 /\
  slice raw p (p + 4) = ftyp /\
  forall j, 0 <= j < p -> slice raw j (j + 4) <> ftyp.
Proof.
  unfold signature_check.
  destruct (contains ftyp (slice_to raw 100)) eqn:Hc.
  2:{ intros [H|[]]. discriminate. }
  intros [H|[H|[]]]; [|discriminate]. injection H as <-.
  apply contains_prefix_iff in Hc. destruct Hc as (q & Hq & Hq100 & Hw).
  destruct (find_tag_first ftyp raw q) as (Hr & Hat & Hbefore);
    [reflexivity|lia|exact Hw|].
  pose proof (tag_window_inside raw ftyp q Hq eq_refl Hw).
  repeat split; auto; lia.
Qed.

End SignatureCheck.

(** X1: when the signature check reports [ftyp], the position it prints is
    that of the first [ftyp] tag of the buffer, the tag lies wholly inside
    the first 100 bytes, and the brand printed is [raw[p+4:p+8]], which is
    shorter than four bytes when the buffer ends there. *)
Theorem X1_signature_position (raw : bytes) (p : Z) :
  In (Mp4FtypFound p) (signature_check raw) ->
  0 <= p /\ p + 4 <= Z.min (len raw) 100 /\
  slice raw p (p + 4) = ftyp /\
  (forall j, 0 <= j < p -> slice raw j (j + 4) <> ftyp) /\
  signature_check raw =
    [Mp4FtypFound p; Mp4Brand (slice raw (p + 4) (p + 8))] /\
  Z.of_nat (List.length (slice raw (p + 4) (p + 8))) =
    Z.min 4 (len raw - (p + 4)).
Proof.
  intros Hin.
  destruct (signature_found_facts raw p Hin) as (Hp & H0 & H100 & Hw & Hb).
  repeat split; auto; try lia.
  - unfold signature_check in *.
    destruct (contains ftyp (slice_to raw 100)).
    + rewrite <- Hp. replace (p + 4 + 4) with (p + 8) by lia. reflexivity.
    + destruct Hin as [H|[]]. discriminate.
  - rewrite slice_length by lia. lia.
Qed.

Lemma X1_signature_position_witness :
  signature_check sample_box = [Mp4FtypFound 5; Mp4Brand [x69; x73; x6f; x6d]].
Proof.
  destruct (X1_signature_position sample_box 5) as (_ & _ & _ & _ & H & _).
  - vm_compute. left. reflexivity.
  - exact H.
Defined.

(** X2: the signature check prints its warning exactly when no [ftyp] tag
    lies wholly inside the first 100 bytes; a tag that starts at index 97
    or later is not seen. *)
Theorem X2_signature_warning (raw : bytes) :
  signature_check raw = [NoFtypWarning] <->
  forall q, 0 <= q -> q + 4 <= 100 -> slice raw q (q + 4) <> ftyp.
Proof.
  unfold signature_check.
  destruct (contains ftyp (slice_to raw 100)) eqn:Hc.
  - apply contains_prefix_iff in Hc. destruct Hc as (q & Hq & Hq100 & Hw).
    split; [discriminate|]. intros Hnone. exfalso. exact (Hnone q Hq Hq100 Hw).
  - split; [|reflexivity]. intros _ q Hq Hq100 Hw.
    assert (Ht : contains ftyp (slice_to raw 100) = true).
    { apply contains_prefix_iff. eauto. }
    rewrite Ht in Hc. discriminate.
Qed.

(** X3: whenever the signature check reports [ftyp] at [p], the atom search
    of the video stream check stops at a tag no later than [p]: its
    [video_start] is set and is at most [p - 4]. *)
Theorem X3_signature_implies_video_start (raw : bytes) (p : Z) :
  In (Mp4FtypFound p) (signature_check raw) ->
  exists v, find_video_start raw = Some v /\ -4 <= v <= p - 4.
Proof.
  intros Hin.
  destruct (signature_found_facts raw p Hin) as (_ & H0 & H100 & Hw & _).
  unfold find_video_start.
  pose proof (find_range_spec
                (fun i => is_signature (slice raw i (i + 4)))
                (Z.min (len raw) 200)) as H.
  assert (Hsig : is_signature (slice raw p (p + 4)) = true).
  { rewrite Hw. reflexivity. }
  destruct (List.find _ _) as [i|].
  - destruct H as (Hi & _ & Hbefore). exists (i - 4). split; [reflexivity|].
    destruct (Z.le_gt_cases i p); [lia|].
    rewrite Hbefore in Hsig by lia. discriminate.
  - rewrite H in Hsig by lia. discriminate.
Qed.

Lemma X3_signature_implies_video_start_witness :
  exists v, find_video_start early_mdat = Some v /\ -4 <= v <= 10 - 4.
Proof.
  apply (X3_signature_implies_video_start early_mdat 10).
  vm_compute. left. reflexivity.
Defined.

(** ** The turns of the encapsulation scan *)

Section ScanRun.

Variable raw : bytes.

Lemma nth_error_snoc {A} (l : list A) (x y : A) (k : nat) :
  nth_error (l ++ [x]) k = Some y ->
  ((k < List.length l)%nat /\ nth_error l k = Some y) \/
  (k = List.length l /\ y = x).
Proof.
  intros H. destruct (Nat.lt_ge_cases k (List.length l)) as [Hlt|Hge].
  - left. rewrite nth_error_app1 in H by assumption. auto.
  - right. rewrite nth_error_app2 in H by assumption.
    destruct (k - List.length l)%nat as [|m] eqn:E.
    + simpl in H. injection H as <-. split; [lia|reflexivity].
    + simpl in H. destruct m; discriminate.
Qed.

Lemma running_initial : scan_running raw (mkScan 0 0 []).
Proof.
  pose proof (len_nonneg raw) as Hlen.
  unfold scan_running. cbn [pos item_count printed List.length].
  repeat split; try lia.
  intros [|k] l Hk; discriminate.
Qed.

Lemma running_skip (st : scan_state) :
  scan_running raw st -> pos st < Z.min (len raw) 200 ->
  scan_running raw (mkScan (pos st + 1) (item_count st) (printed st)).
Proof.
  intros (Hpos & Hcount & Hbound & Hlines) Hlt.
  unfold scan_running. cbn [pos item_count printed].
  repeat split; try lia.
  intros k l Hk. destruct (Hlines k l Hk) as (p & n & Hl & Hn & Hp & Hp8 & Hsp).
  exists p, n. repeat split; auto; lia.
Qed.

Lemma running_item (st : scan_state) (n : Z) :
  scan_running raw st -> pos st < Z.min (len raw) 200 -> unsized n ->
  scan_running raw
    (mkScan (pos st + 8) (item_count st + 1)
            (printed st ++ [ItemAt (item_count st) (pos st) n])).
Proof.
  intros (Hpos & Hcount & Hbound & Hlines) Hlt Hn.
  unfold scan_running. cbn [pos item_count printed].
  rewrite length_app. cbn [List.length].
  repeat split; try lia.
  intros k l Hk. apply nth_error_snoc in Hk.
  destruct Hk as [[Hlt' Hk]|[-> ->]].
  - destruct (Hlines k l Hk) as (p & m & Hl & Hm & Hp & Hp8 & Hsp).
    exists p, m. repeat split; auto; try lia.
    intros j l' Hj Hl'. rewrite nth_error_app1 in Hl' by lia.
    exact (Hsp j l' Hj Hl').
  - exists (pos st), n. rewrite <- Hcount. repeat split; auto; try lia.
    intros j l' Hj Hl'. rewrite nth_error_app1 in Hl' by lia.
    destruct (Hlines j l' Hl') as (p & m & -> & _ & _ & Hp8 & _).
    cbn [line_pos]. lia.
Qed.

(** Every run of the loop ends in one of the three exits, from a state that
    holds only unsized items. *)
Lemma scan_items_run (fuel : nat) (st st' : scan_state) :
  scan_items fuel raw st = Some st' ->
  scan_running raw st ->
  exists st0, scan_running raw st0 /\ scan_exit raw st0 st'.
Proof.
  revert st. induction fuel as [|fuel IH]; intros st Hrun Hst;
    [discriminate|].
  rewrite scan_items_S in Hrun.
  destruct (Z.ltb_spec (pos st) (Z.min (len raw) 200)) as [Hlt|Hge].
  2:{ injection Hrun as <-. exists st. split; [assumption|].
      left. split; [lia|reflexivity]. }
  destruct (bytes_eqb (slice raw (pos st) (pos st + 4)) item_tag) eqn:Hitem.
  - cbv zeta in Hrun. apply bytes_eqb_eq in Hitem.
    destruct (Z.eqb_spec
                (from_bytes_little (slice raw (pos st + 4) (pos st + 8))) 0)
      as [H0|Hn0].
    { apply IH in Hrun; [exact Hrun|].
      apply running_item; [assumption|assumption|left; assumption]. }
    destruct (Z.eqb_spec
                (from_bytes_little (slice raw (pos st + 4) (pos st + 8)))
                0xffffffff) as [Hu|Hnu].
    { apply IH in Hrun; [exact Hrun|].
      apply running_item; [assumption|assumption|right; assumption]. }
    injection Hrun as <-. exists st. split; [assumption|].
    right. left. repeat split; auto. intros [H|H]; contradiction.
  - destruct (bytes_eqb _ seq_delim_tag) eqn:Hdelim.
    + injection Hrun as <-. exists st. split; [assumption|].
      right. right. apply bytes_eqb_eq in Hdelim. repeat split; auto.
    + apply IH in Hrun; [exact Hrun|]. now apply running_skip.
Qed.

Lemma encapsulation_run (st : scan_state) :
  encapsulation raw = Some st ->
  exists st0, scan_running raw st0 /\ scan_exit raw st0 st.
Proof.
  unfold encapsulation. intros H.
  exact (scan_items_run _ _ _ H running_initial).
Qed.

Lemma running_all_items (st : scan_state) :
  scan_running raw st ->
  filter is_item_line (printed st) = printed st.
Proof.
  intros (_ & _ & _ & Hlines).
  assert (Hall : forall l, In l (printed st) -> is_item_line l = true).
  { intros l Hin. apply In_nth_error in Hin. destruct Hin as [k Hk].
    destruct (Hlines k l Hk) as (p & n & -> & _). reflexivity. }
  clear Hlines. induction (printed st) as [|l ls IHls]; [reflexivity|].
  cbn [filter]. rewrite (Hall l) by (now left). f_equal.
  apply IHls. intros l' Hl'. apply Hall. now right.
Qed.

End ScanRun.

(** ** What the encapsulation scan prints *)

(** Splits a finished scan into its last running state and its exit. *)
Ltac scan_exits Hrun st0 Hst0 :=
  let Hexit := fresh "Hexit" in
  apply encapsulation_run in Hrun;
  destruct Hrun as (st0 & Hst0 & Hexit);
  destruct Hexit as [[? ->]|[(? & ? & ? & ->)|(? & ? & ->)]];
  cbn [pos item_count printed] in *.

(** X4: the items are numbered 0, 1, 2, ... in the order they are printed,
    and [item_count] ends as the number of item lines. *)
Theorem X4_items_numbered (raw : bytes) (st : scan_state) :
  encapsulation raw = Some st ->
  (forall k c p n,
      nth_error (printed st) k = Some (ItemAt c p n) -> c = Z.of_nat k) /\
  item_count st =
    Z.of_nat (List.length (filter is_item_line (printed st))).
Proof.
  intros Hrun. scan_exits Hrun st0 Hst0.
  - pose proof (running_all_items raw st0 Hst0) as Hall.
    destruct Hst0 as (_ & Hcount & _ & Hlines). split.
    + intros k c p n Hk.
      destruct (Hlines _ _ Hk) as (p' & n' & Hl & _). congruence.
    + now rewrite Hall.
  - pose proof (running_all_items raw st0 Hst0) as Hall.
    destruct Hst0 as (_ & Hcount & _ & Hlines). split.
    + intros k c p n Hk. apply nth_error_snoc in Hk.
      destruct Hk as [[_ Hk]|[-> Hk]].
      * destruct (Hlines _ _ Hk) as (p' & n' & Hl & _). congruence.
      * injection Hk as -> _ _. exact Hcount.
    + rewrite filter_app, Hall, length_app. cbn [filter is_item_line].
      cbn [List.length]. lia.
  - pose proof (running_all_items raw st0 Hst0) as Hall.
    destruct Hst0 as (_ & Hcount & _ & Hlines). split.
    + intros k c p n Hk. apply nth_error_snoc in Hk.
      destruct Hk as [[_ Hk]|[_ Hk]]; [|discriminate].
      destruct (Hlines _ _ Hk) as (p' & n' & Hl & _). congruence.
    + rewrite filter_app, Hall. cbn [filter is_item_line].
      now rewrite app_nil_r.
Qed.

Lemma X4_items_numbered_witness :
  (forall k c p n,
      nth_error [ItemAt 0 0 4294967295; ItemAt 1 8 3] k =
      Some (ItemAt c p n) -> c = Z.of_nat k) /\
  2 = Z.of_nat
        (List.length
           (filter is_item_line [ItemAt 0 0 4294967295; ItemAt 1 8 3])).
Proof.
  apply (X4_items_numbered nested_item
           (mkScan 19 2 [ItemAt 0 0 4294967295; ItemAt 1 8 3])).
  vm_compute. reflexivity.
Defined.

(** X5: only the last line the scan prints can be a sequence delimiter or an
    item with a proper length; every line before the last is an item of
    length 0 or 0xFFFFFFFF. *)
Theorem X5_only_last_line_ends_scan
        (raw : bytes) (st : scan_state) (k : nat) (l : line) :
  encapsulation raw = Some st ->
  nth_error (printed st) k = Some l ->
  (S k < List.length (printed st))%nat ->
  exists c p n, l = ItemAt c p n /\ unsized n.
Proof.
  intros Hrun Hk Hnotlast. scan_exits Hrun st0 Hst0;
    destruct Hst0 as (_ & _ & _ & Hlines).
  - destruct (Hlines _ _ Hk) as (p & n & -> & Hn & _). eauto.
  - rewrite length_app in Hnotlast. cbn [List.length] in Hnotlast.
    rewrite nth_error_app1 in Hk by lia.
    destruct (Hlines _ _ Hk) as (p & n & -> & Hn & _). eauto.
  - rewrite length_app in Hnotlast. cbn [List.length] in Hnotlast.
    rewrite nth_error_app1 in Hk by lia.
    destruct (Hlines _ _ Hk) as (p & n & -> & Hn & _). eauto.
Qed.

Lemma X5_only_last_line_ends_scan_witness :
  exists c p n, ItemAt 0 0 4294967295 = ItemAt c p n /\ unsized n.
Proof.
  apply (X5_only_last_line_ends_scan nested_item
           (mkScan 19 2 [ItemAt 0 0 4294967295; ItemAt 1 8 3]) 0).
  - vm_compute. reflexivity.
  - reflexivity.
  - simpl. lia.
Defined.

(** X6: the offsets the scan prints grow by at least eight from one line to
    the next, so no two printed headers overlap. *)
Theorem X6_lines_eight_apart
        (raw : bytes) (st : scan_state) (j k : nat) (lj lk : line) :
  encapsulation raw = Some st ->
  (j < k)%nat ->
  nth_error (printed st) j = Some lj ->
  nth_error (printed st) k = Some lk ->
  line_pos lj + 8 <= line_pos lk.
Proof.
  intros Hrun Hjk Hj Hk. scan_exits Hrun st0 Hst0;
    destruct Hst0 as (_ & _ & _ & Hlines).
  - destruct (Hlines _ _ Hk) as (p & n & -> & _ & _ & _ & Hsp).
    exact (Hsp _ _ Hjk Hj).
  - apply nth_error_snoc in Hk. destruct Hk as [[Hlt Hk]|[-> ->]].
    + rewrite nth_error_app1 in Hj by lia.
      destruct (Hlines _ _ Hk) as (p & n & -> & _ & _ & _ & Hsp).
      exact (Hsp _ _ Hjk Hj).
    + rewrite nth_error_app1 in Hj by lia.
      destruct (Hlines _ _ Hj) as (p & n & -> & _ & _ & Hp8 & _).
      cbn [line_pos]. lia.
  - apply nth_error_snoc in Hk. destruct Hk as [[Hlt Hk]|[-> ->]].
    + rewrite nth_error_app1 in Hj by lia.
      destruct (Hlines _ _ Hk) as (p & n & -> & _ & _ & _ & Hsp).
      exact (Hsp _ _ Hjk Hj).
    + rewrite nth_error_app1 in Hj by lia.
      destruct (Hlines _ _ Hj) as (p & n & -> & _ & _ & Hp8 & _).
      cbn [line_pos]. lia.
Qed.

Lemma X6_lines_eight_apart_witness :
  line_pos (ItemAt 0 0 4294967295) + 8 <= line_pos (ItemAt 1 8 3).
Proof.
  apply (X6_lines_eight_apart nested_item
           (mkScan 19 2 [ItemAt 0 0 4294967295; ItemAt 1 8 3]) 0 1).
  - vm_compute. reflexivity.
  - lia.
  - reflexivity.
  - reflexivity.
Defined.

(** X7: the scan prints at most 25 lines, hence at most 25 items, whatever
    the buffer holds. *)
Theorem X7_at_most_25_lines (raw : bytes) (st : scan_state) :
  encapsulation raw = Some st ->
  item_count st <= 25 /\ (List.length (printed st) <= 25)%nat.
Proof.
  intros Hrun. scan_exits Hrun st0 Hst0;
    destruct Hst0 as (Hpos & Hcount & Hbound & _).
  - lia.
  - rewrite length_app. cbn [List.length]. lia.
  - rewrite length_app. cbn [List.length]. lia.
Qed.

Lemma X7_at_most_25_lines_witness :
  25 <= 25 /\
  (List.length (map (fun k => ItemAt k (8 * k) 0) (range 25)) <= 25)%nat.
Proof.
  apply (X7_at_most_25_lines empty_items
           (mkScan 200 25 (map (fun k => ItemAt k (8 * k) 0) (range 25)))).
  vm_compute. reflexivity.
Defined.

(** ** Resynchronisation and the reach of the scan *)

Section ScanSkip.

Variable raw : bytes.

(** Over a stretch without tags the loop moves one byte per turn. *)
Lemma scan_skip (n fuel : nat) (q c : Z) (out : list line) :
  0 <= q ->
  (forall j, q <= j < q + Z.of_nat n ->
             j < Z.min (len raw) 200 /\
             slice raw j (j + 4) <> item_tag /\
             slice raw j (j + 4) <> seq_delim_tag) ->
  scan_items (n + fuel) raw (mkScan q c out) =
  scan_items fuel raw (mkScan (q + Z.of_nat n) c out).
Proof.
  revert q. induction n as [|n IH]; intros q Hq Hnone.
  - cbn [Nat.add Z.of_nat]. now rewrite Z.add_0_r.
  - change (S n + fuel)%nat with (S (n + fuel)). rewrite scan_items_S.
    cbn [pos item_count printed].
    destruct (Hnone q) as (Hlt & Hitem & Hdelim); [lia|].
    destruct (Z.ltb_spec q (Z.min (len raw) 200)); [|lia].
    apply bytes_eqb_neq_false in Hitem. apply bytes_eqb_neq_false in Hdelim.
    rewrite Hitem, Hdelim. rewrite IH.
    + f_equal. f_equal. lia.
    + lia.
    + intros j Hj. apply Hnone. lia.
Qed.

(** The scan reads nothing at or beyond byte 207. *)
Lemma scan_items_prefix (fuel : nat) (st : scan_state) :
  0 <= pos st ->
  scan_items fuel (firstn 207 raw) st = scan_items fuel raw st.
Proof.
  revert st. induction fuel as [|fuel IH]; intros st Hpos; [reflexivity|].
  rewrite !scan_items_S.
  assert (Hmin : Z.min (len (firstn 207 raw)) 200 = Z.min (len raw) 200).
  { rewrite len_firstn. lia. }
  rewrite Hmin.
  destruct (Z.ltb_spec (pos st) (Z.min (len raw) 200)) as [Hlt|Hge];
    [|reflexivity].
  rewrite !(slice_firstn 207) by lia.
  destruct (bytes_eqb (slice raw (pos st) (pos st + 4)) item_tag).
  - cbv zeta.
    destruct (_ =? 0); [apply IH; cbn [pos]; lia|].
    destruct (_ =? 0xffffffff); [apply IH; cbn [pos]; lia|reflexivity].
  - destruct (bytes_eqb _ seq_delim_tag); [reflexivity|].
    apply IH. cbn [pos]. lia.
Qed.

End ScanSkip.

(** Checking a test on every index of [range n] by evaluation. *)
Lemma range_forall (f : Z -> bool) (n : Z) :
  forallb f (range n) = true -> forall j, 0 <= j < n -> f j = true.
Proof.
  intros H j Hj. rewrite forallb_forall in H. apply H.
  unfold range. apply in_map_iff. exists (Z.to_nat j).
  split; [lia|]. apply in_seq. lia.
Qed.

Lemma no_item_tags_check (raw : bytes) :
  forallb (fun p => negb (bytes_eqb (slice raw p (p + 4)) item_tag) &&
                    negb (bytes_eqb (slice raw p (p + 4)) seq_delim_tag))
          (range (Z.min (len raw) 200)) = true ->
  no_item_tags raw.
Proof.
  intros H p Hp. pose proof (range_forall _ _ H p Hp) as Hc.
  cbv beta in Hc. apply andb_true_iff in Hc. destruct Hc as [Hi Hd].
  split; intros Hw; rewrite Hw in *; discriminate.
Qed.

(** X8: when no window of the first 200 bytes holds an item tag or a
    sequence delimiter, the scan prints nothing and leaves [pos] at the end
    of the scanned prefix, [min(len(raw), 200)]. *)
Theorem X8_no_tags_no_lines (raw : bytes) :
  no_item_tags raw ->
  encapsulation raw = Some (mkScan (Z.min (len raw) 200) 0 []).
Proof.
  intros Hnone. pose proof (len_nonneg raw) as Hlen.
  unfold encapsulation.
  set (m := Z.to_nat (Z.min (len raw) 200)).
  replace scan_fuel with (m + S (200 - m))%nat
    by (unfold scan_fuel; lia).
  rewrite scan_skip; [|lia|].
  - rewrite scan_items_S. cbn [pos].
    destruct (Z.ltb_spec (0 + Z.of_nat m) (Z.min (len raw) 200)); [lia|].
    f_equal. f_equal. lia.
  - intros j Hj. destruct (Hnone j) as [Hi Hd]; [lia|].
    repeat split; auto; lia.
Qed.

Lemma X8_no_tags_no_lines_witness :
  encapsulation zeros = Some (mkScan (Z.min (len zeros) 200) 0 []).
Proof.
  apply (X8_no_tags_no_lines zeros).
  apply no_item_tags_check. vm_compute. reflexivity.
Defined.

(** X9: the scan resynchronises byte by byte.  When the first window of the
    scanned prefix that holds either tag is at [p], a sequence delimiter
    there is printed as the only line with [pos] left at [p], and an item
    with a proper length there is printed as item 0 with [pos] moved past
    its declared payload. *)
Theorem X9_first_tag_after_junk (raw : bytes) (p : Z) :
  0 <= p < Z.min (len raw) 200 ->
  (forall j, 0 <= j < p ->
             slice raw j (j + 4) <> item_tag /\
             slice raw j (j + 4) <> seq_delim_tag) ->
  (slice raw p (p + 4) = seq_delim_tag ->
   encapsulation raw = Some (mkScan p 0 [SequenceDelimiterAt p])) /\
  (slice raw p (p + 4) = item_tag ->
   ~ unsized (from_bytes_little (slice raw (p + 4) (p + 8))) ->
   encapsulation raw =
   Some (mkScan (p + 8 + from_bytes_little (slice raw (p + 4) (p + 8))) 1
           [ItemAt 0 p (from_bytes_little (slice raw (p + 4) (p + 8)))])).
Proof.
  intros Hp Hjunk.
  assert (Hstart : forall fuel,
             scan_items (Z.to_nat p + fuel) raw (mkScan 0 0 []) =
             scan_items fuel raw (mkScan p 0 [])).
  { intros fuel. rewrite scan_skip; [|lia|].
    - f_equal. f_equal. lia.
    - intros j Hj. destruct (Hjunk j) as [Hi Hd]; [lia|].
      repeat split; auto; lia. }
  unfold encapsulation.
  replace scan_fuel with (Z.to_nat p + S (200 - Z.to_nat p))%nat
    by (unfold scan_fuel; lia).
  rewrite Hstart, scan_items_S. cbn [pos item_count printed].
  destruct (Z.ltb_spec p (Z.min (len raw) 200)); [|lia].
  split.
  - intros Hw. rewrite Hw. reflexivity.
  - intros Hw Hsized. rewrite Hw, bytes_eqb_refl. cbv zeta.
    destruct (Z.eqb_spec (from_bytes_little (slice raw (p + 4) (p + 8))) 0)
      as [H0|_]; [exfalso; apply Hsized; now left|].
    destruct (Z.eqb_spec (from_bytes_little (slice raw (p + 4) (p + 8)))
                         0xffffffff)
      as [Hu|_]; [exfalso; apply Hsized; now right|].
    reflexivity.
Qed.

Lemma X9_first_tag_after_junk_witness :
  encapsulation junk_then_delimiter = Some (mkScan 3 0 [SequenceDelimiterAt 3]).
Proof.
  apply (X9_first_tag_after_junk junk_then_delimiter 3).
  - vm_compute. split; [discriminate|reflexivity].
  - intros j Hj. assert (Hc : j = 0 \/ j = 1 \/ j = 2) by lia.
    destruct Hc as [->|[->| ->]]; vm_compute; split; discriminate.
  - vm_compute. reflexivity.
Defined.

(** X10: after an item of length 0 or 0xFFFFFFFF the scan goes on eight
    bytes further, right behind the header.  An undefined-length item is
    therefore not skipped over: an item tag at the start of its payload is
    printed as the next item. *)
Theorem X10_scan_resumes_behind_header
        (raw field1 field2 rest : bytes) :
  raw = item_tag ++ field1 ++ item_tag ++ field2 ++ rest ->
  List.length field1 = 4%nat -> List.length field2 = 4%nat ->
  unsized (from_bytes_little field1) ->
  ~ unsized (from_bytes_little field2) ->
  encapsulation raw =
  Some (mkScan (16 + from_bytes_little field2) 2
          [ItemAt 0 0 (from_bytes_little field1);
           ItemAt 1 8 (from_bytes_little field2)]).
Proof.
  intros Hraw Hf1 Hf2 Hun Hsized.
  destruct field1 as [|a0 [|a1 [|a2 [|a3 [|]]]]]; try discriminate.
  destruct field2 as [|b0 [|b1 [|b2 [|b3 [|]]]]]; try discriminate.
  assert (Hlen : len raw = 16 + len rest).
  { rewrite Hraw, !len_app. unfold len. simpl List.length. lia. }
  pose proof (len_nonneg rest) as Hrest.
  assert (Ht1 : slice raw 0 (0 + 4) = item_tag).
  { rewrite slice_window by lia. rewrite Hraw. reflexivity. }
  assert (Hl1 : slice raw (0 + 4) (0 + 8) = [a0; a1; a2; a3]).
  { change (0 + 8) with (4 + 4). change (0 + 4) with 4.
    rewrite slice_window by lia. rewrite Hraw. reflexivity. }
  assert (Ht2 : slice raw (0 + 8) (0 + 8 + 4) = item_tag).
  { rewrite slice_window by lia. rewrite Hraw. reflexivity. }
  assert (Hl2 : slice raw (0 + 8 + 4) (0 + 8 + 8) = [b0; b1; b2; b3]).
  { change (0 + 8 + 8) with (12 + 4). change (0 + 8 + 4) with 12.
    rewrite slice_window by lia. rewrite Hraw. reflexivity. }
  assert (Hsecond :
            scan_items 200 raw
              (mkScan (0 + 8) (0 + 1)
                 ([] ++ [ItemAt 0 0 (from_bytes_little [a0; a1; a2; a3])])) =
            Some (mkScan (16 + from_bytes_little [b0; b1; b2; b3]) 2
                    [ItemAt 0 0 (from_bytes_little [a0; a1; a2; a3]);
                     ItemAt 1 8 (from_bytes_little [b0; b1; b2; b3])])).
  { rewrite scan_items_S. cbn [pos item_count printed].
    destruct (Z.ltb_spec (0 + 8) (Z.min (len raw) 200)); [|lia].
    rewrite Ht2, bytes_eqb_refl. cbv zeta. rewrite Hl2.
    destruct (Z.eqb_spec (from_bytes_little [b0; b1; b2; b3]) 0)
      as [H0|_]; [exfalso; apply Hsized; now left|].
    destruct (Z.eqb_spec (from_bytes_little [b0; b1; b2; b3]) 0xffffffff)
      as [Hu|_]; [exfalso; apply Hsized; now right|].
    reflexivity. }
  unfold encapsulation, scan_fuel. rewrite scan_items_S.
  cbn [pos item_count printed].
  destruct (Z.ltb_spec 0 (Z.min (len raw) 200)); [|lia].
  rewrite Ht1, bytes_eqb_refl. cbv zeta. rewrite Hl1.
  destruct Hun as [Hun|Hun]; rewrite Hun in *.
  - exact Hsecond.
  - exact Hsecond.
Qed.

Lemma X10_scan_resumes_behind_header_witness :
  encapsulation nested_item =
  Some (mkScan (16 + from_bytes_little [x03; x00; x00; x00]) 2
          [ItemAt 0 0 (from_bytes_little [xff; xff; xff; xff]);
           ItemAt 1 8 (from_bytes_little [x03; x00; x00; x00])]).
Proof.
  apply (X10_scan_resumes_behind_header nested_item
           [xff; xff; xff; xff] [x03; x00; x00; x00] [x01; x02; x03]).
  - reflexivity.
  - reflexivity.
  - reflexivity.
  - right. vm_compute. reflexivity.
  - vm_compute. intros [H|H]; discriminate.
Defined.

(** X11: the scan reads nothing at or beyond byte 207: it gives the same
    result on the buffer and on its first 207 bytes. *)
Theorem X11_scan_reads_first_207_bytes (raw : bytes) :
  encapsulation (firstn 207 raw) = encapsulation raw.
Proof.
  unfold encapsulation. apply scan_items_prefix. cbn [pos]. lia.
Qed.

(** ** The atom search and the avcC lookup, from the result back *)

Section AtomSearch.

Variable raw : bytes.

Lemma find_video_start_some (v : Z) :
  find_video_start raw = Some v ->
  0 <= v + 4 < Z.min (len raw) 200 /\
  is_signature (slice raw (v + 4) (v + 8)) = true /\
  forall j, 0 <= j < v + 4 -> is_signature (slice raw j (j + 4)) = false.
Proof.
  unfold find_video_start.
  pose proof (find_range_spec
                (fun i => is_signature (slice raw i (i + 4)))
                (Z.min (len raw) 200)) as H.
  destruct (List.find _ _) as [i|]; [|discriminate].
  intros [= <-]. destruct H as (Hi & Hfi & Hbefore).
  replace (i - 4 + 4) with i by lia. replace (i - 4 + 8) with (i + 4) by lia.
  auto.
Qed.

Lemma signature_window (i : Z) :
  0 <= i -> is_signature (slice raw i (i + 4)) = true ->
  (slice raw i (i + 4) = ftyp \/ slice raw i (i + 4) = mdat) /\
  i + 4 <= len raw.
Proof.
  intros Hi Hsig. unfold is_signature in Hsig. apply orb_true_iff in Hsig.
  destruct Hsig as [H|H]; apply bytes_eqb_eq in H.
  - split; [now left|].
    apply (tag_window_inside raw ftyp); [assumption|reflexivity|assumption].
  - split; [now right|].
    apply (tag_window_inside raw mdat); [assumption|reflexivity|assumption].
Qed.

Lemma find_ext_in {A} (f g : A -> bool) (l : list A) :
  (forall x, In x l -> f x = g x) -> List.find f l = List.find g l.
Proof.
  induction l as [|x l IH]; intros H; [reflexivity|].
  cbn [List.find]. rewrite <- (H x) by (now left).
  destruct (f x); [reflexivity|]. apply IH. intros y Hy. apply H. now right.
Qed.

Lemma in_range (n x : Z) : In x (range n) -> 0 <= x < n.
Proof.
  unfold range. intros H. apply in_map_iff in H.
  destruct H as (k & <- & Hk). apply in_seq in Hk. lia.
Qed.

Lemma no_signature_check :
  forallb (fun j => negb (is_signature (slice raw j (j + 4))))
          (range (Z.min (len raw) 200)) = true ->
  forall j, 0 <= j < Z.min (len raw) 200 ->
            is_signature (slice raw j (j + 4)) = false.
Proof.
  intros H j Hj. pose proof (range_forall _ _ H j Hj) as Hc.
  cbv beta in Hc. now destruct (is_signature (slice raw j (j + 4))).
Qed.

End AtomSearch.

(** X12: every atom the video stream check reports has its eight header
    bytes inside the buffer, at an offset between 1 and 195; its size is the
    big-endian value of the first four, below 2^32, its type is the next
    four and is [ftyp] or [mdat], and no such tag starts earlier.  The size
    itself is not compared with the buffer length. *)
Theorem X12_reported_atom (raw : bytes) (a : atom) :
  first_atom raw = Some a ->
  1 <= atom_offset a <= 195 /\
  atom_offset a + 8 <= len raw /\
  atom_size a =
    from_bytes_big (slice raw (atom_offset a) (atom_offset a + 4)) /\
  0 <= atom_size a < 2 ^ 32 /\
  atom_type a = slice raw (atom_offset a + 4) (atom_offset a + 8) /\
  (atom_type a = ftyp \/ atom_type a = mdat) /\
  forall j, 0 <= j < atom_offset a + 4 ->
            is_signature (slice raw j (j + 4)) = false.
Proof.
  unfold first_atom.
  destruct (find_video_start raw) as [v|] eqn:Hv; [|discriminate].
  destruct (find_video_start_some raw v Hv) as (Hi & Hsig & Hbefore).
  unfold video_start_ok.
  destruct (Z.eqb_spec v 0); [discriminate|].
  destruct (Z.gtb_spec v 0); [|discriminate].
  cbn [negb andb]. intros [= <-]. cbn [atom_offset atom_size atom_type].
  replace (v + 8) with (v + 4 + 4) in * by lia.
  destruct (signature_window raw (v + 4)) as [Htype Hin]; [lia|assumption|].
  destruct (size_field_range raw (v + 4)) as [_ Hsize]; [lia|].
  replace (v + 4 - 4) with v in Hsize by lia.
  repeat split; auto; lia.
Qed.

Lemma X12_reported_atom_witness :
  1 <= 1 <= 195 /\ 1 + 8 <= len sample_box /\
  24 = from_bytes_big (slice sample_box 1 (1 + 4)) /\
  0 <= 24 < 2 ^ 32 /\
  ftyp = slice sample_box (1 + 4) (1 + 8) /\
  (ftyp = ftyp \/ ftyp = mdat) /\
  forall j, 0 <= j < 1 + 4 ->
            is_signature (slice sample_box j (j + 4)) = false.
Proof.
  apply (X12_reported_atom sample_box (mkAtom 1 24 ftyp)).
  vm_compute. reflexivity.
Defined.

(** X13: a [ftyp] or [mdat] tag that starts within the first five bytes
    stops the atom search with a [video_start] of 0 or less; the video
    stream check then prints nothing at all, whatever atoms and avcC
    records follow. *)
Theorem X13_early_tag_silences_video_check (raw : bytes) (i : Z) :
  0 <= i <= 4 -> i < len raw ->
  is_signature (slice raw i (i + 4)) = true ->
  (forall j, 0 <= j < i -> is_signature (slice raw j (j + 4)) = false) ->
  find_video_start raw = Some (i - 4) /\
  first_atom raw = None /\
  video_stream_check raw = [].
Proof.
  intros Hi Hlen Hat Hbefore.
  assert (Hvs : find_video_start raw = Some (i - 4)).
  { unfold find_video_start.
    rewrite (find_range_first _ _ i); auto. lia. }
  assert (Hnone : first_atom raw = None).
  { unfold first_atom. rewrite Hvs. unfold video_start_ok.
    destruct (Z.eqb_spec (i - 4) 0); [reflexivity|].
    destruct (Z.gtb_spec (i - 4) 0); [lia|reflexivity]. }
  split; [exact Hvs|]. split; [exact Hnone|].
  now rewrite video_stream_check_cases, Hnone.
Qed.

Lemma X13_early_tag_silences_video_check_witness :
  find_video_start early_mdat = Some (2 - 4) /\
  first_atom early_mdat = None /\
  video_stream_check early_mdat = [].
Proof.
  apply (X13_early_tag_silences_video_check early_mdat 2).
  - lia.
  - vm_compute. reflexivity.
  - vm_compute. reflexivity.
  - intros j Hj. assert (Hc : j = 0 \/ j = 1) by lia.
    destruct Hc as [->| ->]; vm_compute; reflexivity.
Defined.

(** X14: the video stream check prints one of four things: nothing, when no
    atom is reported; the atom and "no avcC", when the tag is absent or at
    offset 0; the atom and the handler's [IndexError] line, when the record
    is cut short; or the atom, the profile and the level.  A profile is
    never printed without its level, and a byte value is what it prints. *)
Theorem X14_video_lines_shape (raw : bytes) :
  (first_atom raw = None /\ video_stream_check raw = []) \/
  exists a, first_atom raw = Some a /\
    ((find avcC raw <= 0 /\
      video_stream_check raw =
      [FirstAtom (atom_size a) (atom_type a); NoAvcC]) \/
     (0 < find avcC raw /\ len raw <= find avcC raw + 7 /\
      video_stream_check raw =
      [FirstAtom (atom_size a) (atom_type a); VideoCheckError IndexError]) \/
     (0 < find avcC raw /\ find avcC raw + 7 < len raw /\
      exists profile_idc level_idc,
        0 <= profile_idc < 256 /\ 0 <= level_idc < 256 /\
        video_stream_check raw =
        [FirstAtom (atom_size a) (atom_type a);
         H264Profile (profile_name profile_idc) profile_idc;
         H264Level (format_level level_idc)])).
Proof.
  rewrite video_stream_check_cases.
  destruct (first_atom raw) as [a|]; [right; exists a|left; auto].
  split; [reflexivity|].
  destruct (Z.lt_ge_cases 0 (find avcC raw)) as [Hpos|Hnpos].
  - destruct (Z.lt_ge_cases (find avcC raw + 7) (len raw)) as [Hin|Hout].
    + right. right. split; [assumption|]. split; [assumption|].
      destruct (avc_check_complete raw Hpos Hin) as (x & y & _ & _ & ->).
      exists (byte_val x), (byte_val y).
      split; [apply byte_val_range|]. split; [apply byte_val_range|].
      reflexivity.
    + right. left. rewrite avc_check_truncated by assumption. auto.
  - left. rewrite avc_check_absent by lia. split; [lia|reflexivity].
Qed.

(** X15: when no window of the buffer holds the avcC tag, [find] gives -1,
    the lookup prints "no avcC" without raising, and the video stream check
    prints either nothing or the atom followed by that line. *)
Theorem X15_avcC_absent (raw : bytes) :
  (forall j, 0 <= j -> j + 4 <= len raw -> slice raw j (j + 4) <> avcC) ->
  find avcC raw = -1 /\
  avc_check raw = ([NoAvcC], inr tt) /\
  (video_stream_check raw = [] \/
   exists a, first_atom raw = Some a /\
             video_stream_check raw =
             [FirstAtom (atom_size a) (atom_type a); NoAvcC]).
Proof.
  intros Hnone.
  assert (Hfind : find avcC raw = -1).
  { apply find_tag_absent; [reflexivity|]. intros j Hj Hw.
    apply (Hnone j); auto.
    apply (tag_window_inside raw avcC); [assumption|reflexivity|assumption]. }
  assert (Hcheck : avc_check raw = ([NoAvcC], inr tt)).
  { apply avc_check_absent. lia. }
  split; [exact Hfind|]. split; [exact Hcheck|].
  rewrite video_stream_check_cases, Hcheck.
  destruct (first_atom raw) as [a|]; [right; exists a; auto|left; auto].
Qed.

Lemma X15_avcC_absent_witness :
  find avcC extended_size = -1 /\
  avc_check extended_size = ([NoAvcC], inr tt) /\
  (video_stream_check extended_size = [] \/
   exists a, first_atom extended_size = Some a /\
             video_stream_check extended_size =
             [FirstAtom (atom_size a) (atom_type a); NoAvcC]).
Proof.
  apply (X15_avcC_absent extended_size).
  intros j Hj Hlen. change (len extended_size) with 17 in Hlen.
  assert (Hc : In j (range 14)).
  { unfold range. apply in_map_iff. exists (Z.to_nat j).
    split; [lia|]. apply in_seq. lia. }
  vm_compute in Hc.
  repeat (destruct Hc as [<-|Hc]; [vm_compute; discriminate|]).
  destruct Hc.
Defined.

(** ** The three checks together *)

(** X16: on a buffer whose first 200 bytes hold none of the four tags the
    script looks for there - item, sequence delimiter, [ftyp], [mdat] - the
    whole analysis prints a single line, the missing-[ftyp] warning; this
    covers the empty buffer and any run of zero bytes. *)
Theorem X16_tagless_buffer (raw : bytes) :
  no_item_tags raw ->
  (forall j, 0 <= j < Z.min (len raw) 200 ->
             is_signature (slice raw j (j + 4)) = false) ->
  analyze_dicom raw =
  Some (mkReport [NoFtypWarning] (mkScan (Z.min (len raw) 200) 0 []) []).
Proof.
  intros Hitems Hsig.
  assert (Hscan : encapsulation raw =
                  Some (mkScan (Z.min (len raw) 200) 0 [])).
  { unfold encapsulation.
    pose proof (len_nonneg raw) as Hlen.
    set (m := Z.to_nat (Z.min (len raw) 200)).
    replace scan_fuel with (m + S (200 - m))%nat
      by (unfold scan_fuel; lia).
    rewrite scan_skip; [|lia|].
    - rewrite scan_items_S. cbn [pos].
      destruct (Z.ltb_spec (0 + Z.of_nat m) (Z.min (len raw) 200)); [lia|].
      f_equal. f_equal. lia.
    - intros j Hj. destruct (Hitems j) as [Hi Hd]; [lia|].
      repeat split; auto; lia. }
  assert (Hwarn : signature_check raw = [NoFtypWarning]).
  { unfold signature_check.
    destruct (contains ftyp (slice_to raw 100)) eqn:Hc; [|reflexivity].
    apply contains_prefix_iff in Hc. destruct Hc as (q & Hq & Hq100 & Hw).
    pose proof (tag_window_inside raw ftyp q Hq eq_refl Hw) as Hin.
    specialize (Hsig q). rewrite Hw in Hsig.
    assert (true = false) by (apply Hsig; lia). discriminate. }
  assert (Hvideo : video_stream_check raw = []).
  { rewrite video_stream_check_cases. unfold first_atom.
    now rewrite find_video_start_none. }
  unfold analyze_dicom. now rewrite Hscan, Hwarn, Hvideo.
Qed.

Lemma X16_tagless_buffer_witness :
  analyze_dicom zeros =
  Some (mkReport [NoFtypWarning] (mkScan (Z.min (len zeros) 200) 0 []) []).
Proof.
  apply (X16_tagless_buffer zeros).
  - apply no_item_tags_check. vm_compute. reflexivity.
  - apply no_signature_check. vm_compute. reflexivity.
Defined.

(** X17: the two searches for [ftyp] use different windows.  When the first
    tag of the buffer is an [ftyp] that starts at index 97 or later, still
    inside the first 200 bytes, the signature check warns that no [ftyp]
    was found while the video stream check reports the [ftyp] atom. *)
Theorem X17_signature_and_atom_disagree (raw : bytes) (i : Z) :
  97 <= i < Z.min (len raw) 200 ->
  slice raw i (i + 4) = ftyp ->
  (forall j, 0 <= j < i -> is_signature (slice raw j (j + 4)) = false) ->
  signature_check raw = [NoFtypWarning] /\
  first_atom raw =
  Some (mkAtom (i - 4) (from_bytes_big (slice raw (i - 4) i)) ftyp).
Proof.
  intros Hi Hw Hbefore. split.
  - unfold signature_check.
    destruct (contains ftyp (slice_to raw 100)) eqn:Hc; [|reflexivity].
    apply contains_prefix_iff in Hc. destruct Hc as (q & Hq & Hq100 & Hwq).
    specialize (Hbefore q). rewrite Hwq in Hbefore.
    assert (true = false) by (apply Hbefore; lia). discriminate.
  - destruct (first_atom_at raw i) as [_ Hatom];
      [lia|rewrite Hw; reflexivity|assumption|].
    destruct (Z.eqb_spec i 4); [lia|]. now rewrite Hw in Hatom.
Qed.

Lemma X17_signature_and_atom_disagree_witness :
  signature_check late_ftyp = [NoFtypWarning] /\
  first_atom late_ftyp =
  Some (mkAtom (98 - 4) (from_bytes_big (slice late_ftyp (98 - 4) 98)) ftyp).
Proof.
  apply (X17_signature_and_atom_disagree late_ftyp 98).
  - vm_compute. split; [discriminate|reflexivity].
  - vm_compute. reflexivity.
  - intros j Hj.
    apply (range_forall
             (fun j => negb (is_signature (slice late_ftyp j (j + 4)))) 98)
      in Hj; [|vm_compute; reflexivity].
    cbv beta in Hj.
    now destruct (is_signature (slice late_ftyp j (j + 4))).
Defined.

(** X18: the atom search reads nothing at or beyond byte 203: it reports
    the same atom on the buffer and on its first 203 bytes.  Only the avcC
    lookup looks at the rest of the buffer. *)
Theorem X18_atom_search_reads_first_203_bytes (raw : bytes) :
  first_atom (firstn 203 raw) = first_atom raw.
Proof.
  assert (Hmin : Z.min (len (firstn 203 raw)) 200 = Z.min (len raw) 200).
  { rewrite len_firstn. lia. }
  assert (Hvs : find_video_start (firstn 203 raw) = find_video_start raw).
  { unfold find_video_start. rewrite Hmin.
    rewrite (find_ext_in
               (fun i => is_signature (slice (firstn 203 raw) i (i + 4)))
               (fun i => is_signature (slice raw i (i + 4)))); [reflexivity|].
    intros x Hx. apply in_range in Hx.
    cbv beta. rewrite slice_firstn by lia. reflexivity. }
  unfold first_atom. rewrite Hvs.
  destruct (find_video_start raw) as [v|] eqn:Hv; [|reflexivity].
  destruct (find_video_start_some raw v Hv) as (Hi & _ & _).
  unfold video_start_ok.
  destruct (Z.eqb_spec v 0); [reflexivity|].
  destruct (Z.gtb_spec v 0); [|reflexivity]. cbn [negb andb].
  rewrite !(slice_firstn 203) by lia. reflexivity.
Qed.
